(** * Agent examples: tool boundary, delegation, run graph

    A shallow embedding of the Python sources under
    [Context Engineering/examples]: the Brave search tool
    ([main_agent_reference/tools.py]), the research agent and its delegation
    to the email agent ([main_agent_reference/research_agent.py]), the
    tool-enabled agent ([tool_enabled_agent/agent.py]) and the basic chat
    agent ([basic_chat_agent/agent.py]).

    Python values that a function can raise are results of type [outcome];
    code that touches the outside world (HTTP requests, sessions, mutable
    objects shared with the caller) runs in the state-and-error monad [M]
    over an explicit world. *)

From Stdlib Require Import ZArith QArith String Ascii List Lia.
From Stdlib Require PrimFloat Uint63.
From stdpp Require Import base option list gmap strings pretty.

Set Warnings "-register-all,-inexact-float".

(** ** Python values, exceptions and effects *)

Module Py.

(** The classes of the [Exception] hierarchy that the sources raise or
    catch by name.  Every value of [exn] is an instance of [Exception], so
    [except Exception] catches all of them; signals outside that hierarchy
    (task cancellation, interpreter exit) are not errors of a handler and
    have no value here. *)
Inductive exn_class :=
| Exception | ValueError | TypeError | AttributeError | NameError
| RequestError | TimeoutError.

Record exn := mkExn { exn_cls : exn_class; exn_msg : string }.

(** [str(e)] *)
Definition str_exn (e : exn) : string := exn_msg e.

Definition exn_class_eqb (a b : exn_class) : bool :=
  match a, b with
  | Exception, Exception | ValueError, ValueError | TypeError, TypeError
  | AttributeError, AttributeError | NameError, NameError
  | RequestError, RequestError | TimeoutError, TimeoutError => true
  | _, _ => false
  end.

(** [isinstance(e, cls)]: [Exception] is the root of the hierarchy. *)
Definition isinstance (e : exn) (cls : exn_class) : bool :=
  match cls with
  | Exception => true
  | _ => exn_class_eqb (exn_cls e) cls
  end.

Inductive outcome (A : Type) : Type :=
| Ret (a : A)
| Raise (e : exn).
Arguments Ret {A} a.
Arguments Raise {A} e.

Definition is_ret {A} (o : outcome A) : bool :=
  match o with Ret _ => true | Raise _ => false end.

#[export] Instance outcome_ret : MRet outcome := fun A a => Ret a.
#[export] Instance outcome_bind : MBind outcome := fun A B k o =>
  match o with
  | Ret a => k a
  | Raise e => Raise e
  end.

(** [try: ... except Exception as e: ...] around code without effects. *)
Definition catch {A} (body : outcome A) (handler : exn -> outcome A)
  : outcome A :=
  match body with
  | Ret a => Ret a
  | Raise e => handler e
  end.

(** Effectful code over a world [W]: the result and the world it leaves. *)
Definition M (W A : Type) : Type := W -> outcome A * W.

Definition ret {W A} (a : A) : M W A := fun w => (Ret a, w).
Definition raise {W A} (e : exn) : M W A := fun w => (Raise e, w).
Definition lift {W A} (o : outcome A) : M W A := fun w => (o, w).
Definition bind {W A B} (c : M W A) (k : A -> M W B) : M W B :=
  fun w =>
    match c w with
    | (Ret a, w') => k a w'
    | (Raise e, w') => (Raise e, w')
    end.

(** [try: body except Exception as e: handler e] *)
Definition try_except {W A} (body : M W A) (handler : exn -> M W A) : M W A :=
  fun w =>
    match body w with
    | (Ret a, w') => (Ret a, w')
    | (Raise e, w') => handler e w'
    end.

(** [try: body finally: cleanup]: the cleanup runs on both exits; an
    exception of the cleanup replaces the result of the body. *)
Definition try_finally {W A} (body : M W A) (cleanup : M W unit) : M W A :=
  fun w =>
    match body w with
    | (r, w') =>
        match cleanup w' with
        | (Ret _, w'') => (r, w'')
        | (Raise e, w'') => (Raise e, w'')
        end
    end.

(** Code that leaves the world as it found it. *)
Definition silent {W A} (c : M W A) : Prop := forall w, (c w).2 = w.

Declare Scope py_scope.
Delimit Scope py_scope with py.
Notation "x <- c ;; k" := (bind c (fun x => k))
  (at level 100, c at next level, right associativity) : py_scope.
Notation "c ;;; k" := (bind c (fun _ => k))
  (at level 100, right associativity) : py_scope.

(** Values: what JSON decoding produces and what a tool returns.  A
    [float] is a binary64 number. *)
Inductive pyval :=
| PNone
| PBool (b : bool)
| PInt (z : Z)
| PFloat (f : PrimFloat.float)
| PStr (s : string)
| PList (l : list pyval)
| PDict (d : gmap string pyval).

Definition type_name (v : pyval) : string :=
  match v with
  | PNone => "NoneType"
  | PBool _ => "bool"
  | PInt _ => "int"
  | PFloat _ => "float"
  | PStr _ => "str"
  | PList _ => "list"
  | PDict _ => "dict"
  end.

(** [v.get(key, dflt)]: only a dict has the method. *)
Definition py_get (v : pyval) (key : string) (dflt : pyval) : outcome pyval :=
  match v with
  | PDict d => Ret (default dflt (d !! key))
  | _ => Raise (mkExn AttributeError
                  ("'" +:+ type_name v +:+ "' object has no attribute 'get'"))
  end.

(** A Python [str] is a sequence of Unicode code points; a [string] holds
    its UTF-8 encoding.  [utf8_chars] cuts a string into its characters,
    each the bytes of one code point.  A byte that does not begin a
    well-formed sequence is a character of its own, read as the code point
    of its value. *)
Definition byte (c : ascii) : N := N_of_ascii c.

Definition continuation (c : ascii) : bool :=
  ((128 <=? byte c) && (byte c <=? 191))%N.

Definition code2 (b0 b1 : ascii) : N :=
  ((byte b0 - 192) * 64 + (byte b1 - 128))%N.

Definition code3 (b0 b1 b2 : ascii) : N :=
  ((byte b0 - 224) * 4096 + (byte b1 - 128) * 64 + (byte b2 - 128))%N.

Definition code4 (b0 b1 b2 b3 : ascii) : N :=
  ((byte b0 - 240) * 262144 + (byte b1 - 128) * 4096
   + (byte b2 - 128) * 64 + (byte b3 - 128))%N.

Definition two_bytes (b0 b1 : ascii) : bool :=
  ((194 <=? byte b0) && (byte b0 <=? 223))%N && continuation b1.

Definition three_bytes (b0 b1 b2 : ascii) : bool :=
  ((224 <=? byte b0) && (byte b0 <=? 239))%N
  && continuation b1 && continuation b2
  && (2048 <=? code3 b0 b1 b2)%N
  && negb ((55296 <=? code3 b0 b1 b2) && (code3 b0 b1 b2 <=? 57343))%N.

Definition four_bytes (b0 b1 b2 b3 : ascii) : bool :=
  ((240 <=? byte b0) && (byte b0 <=? 244))%N
  && continuation b1 && continuation b2 && continuation b3
  && ((65536 <=? code4 b0 b1 b2 b3) && (code4 b0 b1 b2 b3 <=? 1114111))%N.

Fixpoint utf8_chars (s : string) : list string :=
  match s with
  | EmptyString => []
  | String b0 r0 =>
      let single := String b0 EmptyString :: utf8_chars r0 in
      match r0 with
      | EmptyString => single
      | String b1 r1 =>
          if two_bytes b0 b1
          then String b0 (String b1 EmptyString) :: utf8_chars r1
          else
            match r1 with
            | EmptyString => single
            | String b2 r2 =>
                if three_bytes b0 b1 b2
                then String b0 (String b1 (String b2 EmptyString))
                       :: utf8_chars r2
                else
                  match r2 with
                  | EmptyString => single
                  | String b3 r3 =>
                      if four_bytes b0 b1 b2 b3
                      then String b0 (String b1 (String b2
                             (String b3 EmptyString))) :: utf8_chars r3
                      else single
                  end
            end
      end
  end.

(** The code point of one character. *)
Definition code_point (c : string) : N :=
  match c with
  | String b0 EmptyString => byte b0
  | String b0 (String b1 EmptyString) => code2 b0 b1
  | String b0 (String b1 (String b2 EmptyString)) => code3 b0 b1 b2
  | String b0 (String b1 (String b2 (String b3 EmptyString))) =>
      code4 b0 b1 b2 b3
  | _ => 0%N
  end.

(** The characters [for ... in s] runs through. *)
Definition chars (s : string) : list string := utf8_chars s.

(** The elements [for ... in v] runs through: the items of a list, the
    keys of a dict, the characters of a string. *)
Definition py_iter (v : pyval) : outcome (list pyval) :=
  match v with
  | PList l => Ret l
  | PDict d => Ret (PStr <$> (map_to_list d).*1)
  | PStr s => Ret (PStr <$> chars s)
  | _ => Raise (mkExn TypeError
                  ("'" +:+ type_name v +:+ "' object is not iterable"))
  end.

(** Truth value of a string and of an optional string. *)
Definition truthy (s : string) : bool :=
  match s with EmptyString => false | _ => true end.

Definition truthy_opt (o : option string) : bool :=
  match o with Some s => truthy s | None => false end.

(** The code points [str.strip()] removes, those of [str.isspace()]:
    U+0009 to U+000D, U+001C to U+0020, U+0085, U+00A0, U+1680, U+2000 to
    U+200A, U+2028, U+2029, U+202F, U+205F and U+3000. *)
Definition whitespace_code (n : N) : bool :=
  ((9 <=? n) && (n <=? 13) || (28 <=? n) && (n <=? 32)
   || (n =? 133) || (n =? 160) || (n =? 5760)
   || (8192 <=? n) && (n <=? 8202)
   || (n =? 8232) || (n =? 8233) || (n =? 8239) || (n =? 8287)
   || (n =? 12288))%N.

(** Whitespace as [str.strip()] sees it: [c] is one character. *)
Definition is_space (c : string) : bool := whitespace_code (code_point c).

Fixpoint drop_space (cs : list string) : list string :=
  match cs with
  | [] => []
  | c :: rest => if is_space c then drop_space rest else cs
  end.

Definition of_chars (cs : list string) : string :=
  foldr String.append EmptyString cs.

Definition lstrip (s : string) : string :=
  of_chars (drop_space (utf8_chars s)).

Definition rstrip (s : string) : string :=
  of_chars (rev (drop_space (rev (utf8_chars s)))).

Definition strip (s : string) : string :=
  of_chars (rev (drop_space (rev (drop_space (utf8_chars s))))).

(** [s.startswith(p)] *)
Definition startswith (s p : string) : bool := String.prefix p s.

(** [sub in s] *)
Fixpoint contains (s sub : string) : bool :=
  String.prefix sub s
  || match s with
     | EmptyString => false
     | String _ r => contains r sub
     end.

(** [s.replace(old, new)] for a non-empty [old]: occurrences are replaced
    left to right without overlap.  [skip] counts the characters of an
    occurrence that are still to be dropped. *)
Fixpoint replace_from (skip : nat) (old new s : string) : string :=
  match s with
  | EmptyString => EmptyString
  | String c r =>
      match skip with
      | S k => replace_from k old new r
      | O =>
          if String.prefix old s
          then new +:+ replace_from (String.length old - 1) old new r
          else String c (replace_from O old new r)
      end
  end.

Definition replace (s old new : string) : string := replace_from O old new s.

(** Whether a message names a field, whatever the case of the letters A to
    Z in either. *)
Definition lower_ascii (c : ascii) : ascii :=
  let n := nat_of_ascii c in
  if ((65 <=? n) && (n <=? 90))%nat then ascii_of_nat (n + 32) else c.

Fixpoint lower (s : string) : string :=
  match s with
  | EmptyString => EmptyString
  | String c r => String (lower_ascii c) (lower r)
  end.

Definition names_field (message field : string) : bool :=
  contains (lower message) (lower field).

(** [sep.join(parts)] *)
Fixpoint join (sep : string) (parts : list string) : string :=
  match parts with
  | [] => EmptyString
  | [p] => p
  | p :: rest => p +:+ sep +:+ join sep rest
  end.

(** [max(a, b)] of Python returns [b] only when it is strictly greater. *)
Definition py_max (a b : PrimFloat.float) : PrimFloat.float :=
  if PrimFloat.ltb a b then b else a.

(** The [float] an index is converted to in [idx * 0.05]; an index is below
    [2^63], the largest length of a list. *)
Definition float_of_index (idx : nat) : PrimFloat.float :=
  PrimFloat.of_uint63 (Uint63.of_Z (Z.of_nat idx)).

End Py.

(** ** The Brave search tool ([main_agent_reference/tools.py]) *)

Module Tools.
Import Py.
Import PrimFloat.
Local Open Scope py_scope.

(** One [client.get] call as the backend sees it. *)
Record Request := mkRequest {
  req_url : string;
  req_headers : gmap string string;
  req_params : gmap string pyval;
  req_timeout : Q
}.

(** What the backend answers: [response.json()] raises on a body that is
    not JSON. *)
Record Response := mkResponse {
  status_code : Z;
  text : string;
  json : outcome pyval
}.

(** The world of the tool is the sequence of HTTP requests sent so far,
    oldest first. *)
Definition World : Type := list Request.

(** Relevance score of the result at position [idx], on binary64 numbers
    as the interpreter computes it:
    [score = 1.0 - (idx * 0.05); score = max(score, 0.1)]. *)
Definition position_score (idx : nat) : PrimFloat.float :=
  let score :=
    PrimFloat.sub 1.0%float (PrimFloat.mul (float_of_index idx) 0.05%float) in
  py_max score 0.1%float.

(** The loop [for idx, result in enumerate(web_results)], started at
    position [idx]. *)
Fixpoint convert_results (idx : nat) (web_results : list pyval)
  : outcome (list (gmap string pyval)) :=
  match web_results with
  | [] => Ret []
  | result :: rest =>
      title ← py_get result "title" (PStr EmptyString);
      url ← py_get result "url" (PStr EmptyString);
      description ← py_get result "description" (PStr EmptyString);
      let entry : gmap string pyval :=
        {[ "title" := title; "url" := url; "description" := description;
           "score" := PFloat (position_score idx) ]} in
      results ← convert_results (S idx) rest;
      Ret (entry :: results)
  end.

(** The request [search_web_tool] sends for its arguments once they have
    passed the two checks. *)
Definition search_request (api_key query : string) (count offset : Z)
    (country lang : option string) : Request :=
  let count := Z.min (Z.max count 1) 20 in
  let headers : gmap string string :=
    {[ "X-Subscription-Token" := api_key; "Accept" := "application/json" ]} in
  let params : gmap string pyval :=
    {[ "q" := PStr query; "count" := PInt count; "offset" := PInt offset ]} in
  let params :=
    match country with
    | Some c => if truthy c then <["country" := PStr c]> params else params
    | None => params
    end in
  let params :=
    match lang with
    | Some l => if truthy l then <["lang" := PStr l]> params else params
    | None => params
    end in
  mkRequest "https://api.search.brave.com/res/v1/web/search" headers params 30.0%Q.

Section Backend.

(** The search backend: for each request either a response or the
    exception [client.get] raises. *)
Variable brave : Request -> outcome Response.

Definition client_get (r : Request) : M World Response :=
  fun log => (brave r, log ++ [r]).

Definition search_web_tool (api_key query : string) (count offset : Z)
    (country lang : option string) : M World (list (gmap string pyval)) :=
  if negb (truthy api_key) || negb (truthy (strip api_key)) then
    raise (mkExn ValueError "Brave API key is required")
  else if negb (truthy query) || negb (truthy (strip query)) then
    raise (mkExn ValueError "Query cannot be empty")
  else
    let count := Z.min (Z.max count 1) 20 in
    let headers : gmap string string :=
      {[ "X-Subscription-Token" := api_key; "Accept" := "application/json" ]} in
    let params : gmap string pyval :=
      {[ "q" := PStr query; "count" := PInt count; "offset" := PInt offset ]} in
    let params :=
      match country with
      | Some c => if truthy c then <["country" := PStr c]> params else params
      | None => params
      end in
    let params :=
      match lang with
      | Some l => if truthy l then <["lang" := PStr l]> params else params
      | None => params
      end in
    try_except
      (response <- client_get
                     (mkRequest "https://api.search.brave.com/res/v1/web/search"
                                headers params 30.0%Q) ;;
       if (status_code response =? 429)%Z then
         raise (mkExn Exception "Rate limit exceeded. Check your Brave API quota.")
       else if (status_code response =? 401)%Z then
         raise (mkExn Exception "Invalid Brave API key")
       else if negb (status_code response =? 200)%Z then
         raise (mkExn Exception
                  ("Brave API returned " +:+ pretty (status_code response)
                   +:+ ": " +:+ text response))
       else
         data <- lift (json response) ;;
         web <- lift (py_get data "web" (PDict ∅)) ;;
         web_results <- lift (py_get web "results" (PList [])) ;;
         items <- lift (py_iter web_results) ;;
         results <- lift (convert_results 0 items) ;;
         ret results)
      (fun e =>
         if isinstance e RequestError then
           raise (mkExn Exception ("Request failed: " +:+ str_exn e))
         else
           raise e).

End Backend.

End Tools.

(** ** The research agent ([main_agent_reference/research_agent.py]) *)

Module ResearchAgent.
Import Py.
Local Open Scope py_scope.

Record ResearchAgentDependencies := mkResearchDeps {
  brave_api_key : string;
  gmail_credentials_path : string;
  gmail_token_path : string;
  session_id : option string
}.

Record EmailAgentDependencies := mkEmailDeps {
  email_gmail_credentials_path : string;
  email_gmail_token_path : string;
  email_session_id : option string
}.

(** Modelled from the spec: the usage counters of a session (the [Usage]
    object of the agent library, which is not among the sources).  The
    spec's UsageCounters are [{ request_units, response_units,
    total_units }] and its merge is purely additive. *)
Record UsageCounters := mkUsage {
  request_units : Z;
  response_units : Z;
  total_units : Z
}.

Definition usage_zero : UsageCounters := mkUsage 0 0 0.

Definition merge (into from : UsageCounters) : UsageCounters :=
  mkUsage (request_units into + request_units from)
          (response_units into + response_units from)
          (total_units into + total_units from).

(** Usage objects live in a store and are passed by reference. *)
Definition loc := positive.
Abbreviation UsageStore := (gmap loc UsageCounters) (only parsing).

(** [ctx]: the dependencies and the reference to the usage object of the
    running (parent) session. *)
Record RunContext := mkRunContext {
  deps : ResearchAgentDependencies;
  usage : loc
}.

(** Modelled from the spec: one run of a nested agent, as the sequence of
    usage increments its model requests accrue and the way it ends, with the
    output ([result.data]) or with the exception of a failed session. *)
Record NestedRun := mkNestedRun {
  accrued : list UsageCounters;
  final : outcome string
}.

(** The usage a session reads at its end when it starts from fresh
    counters. *)
Definition session_usage (r : NestedRun) : UsageCounters :=
  foldl merge usage_zero (accrued r).

(** Modelled from the spec: [agent.run(prompt, deps=..., usage=u)] accounts
    every increment of the run on the usage object [u] it was handed, in
    place, and then returns or raises. *)
Definition agent_run (behaviour : string -> EmailAgentDependencies -> NestedRun)
    (prompt : string) (d : EmailAgentDependencies) (u : loc)
  : M UsageStore string :=
  fun store =>
    let r := behaviour prompt d in
    (final r, foldl (fun st inc => alter (fun c => merge c inc) u st)
                    store (accrued r)).

Definition dquote : string := String (ascii_of_nat 34) EmptyString.

Definition email_prompt_with_summary
    (recipient_email subject context research_summary : string) : string :=
  "
Create a professional email to " +:+ recipient_email
  +:+ " with the subject " +:+ dquote +:+ subject +:+ dquote +:+ ".

Context: " +:+ context +:+ "

Research Summary:
" +:+ research_summary +:+ "

Please create a well-structured email that:
1. Has an appropriate greeting
2. Provides clear context
3. Summarizes the key research findings professionally
4. Includes actionable next steps if appropriate
5. Ends with a professional closing

The email should be informative but concise, and maintain a professional yet friendly tone.
".

Definition email_prompt_plain (recipient_email subject context : string)
  : string :=
  "
Create a professional email to " +:+ recipient_email
  +:+ " with the subject " +:+ dquote +:+ subject +:+ dquote +:+ ".

Context: " +:+ context +:+ "

Please create a well-structured email that addresses the context provided.
".

(** The prompt and the dependencies [create_email_draft] hands to the email
    agent. *)
Definition email_prompt (recipient_email subject context : string)
    (research_summary : option string) : string :=
  match research_summary with
  | Some summary =>
      if truthy summary
      then email_prompt_with_summary recipient_email subject context summary
      else email_prompt_plain recipient_email subject context
  | None => email_prompt_plain recipient_email subject context
  end.

Definition email_deps_of (ctx : RunContext) : EmailAgentDependencies :=
  mkEmailDeps (gmail_credentials_path (deps ctx))
              (gmail_token_path (deps ctx))
              (session_id (deps ctx)).

Section Agents.

Variable brave : Tools.Request -> outcome Tools.Response.

(** The email agent, as the behaviour of its runs. *)
Variable email_agent : string -> EmailAgentDependencies -> NestedRun.

Definition search_web (ctx : RunContext) (query : string) (max_results : Z)
  : M Tools.World (list (gmap string pyval)) :=
  try_except
    (let max_results := Z.min (Z.max max_results 1) 20 in
     results <- Tools.search_web_tool brave (brave_api_key (deps ctx)) query
                  max_results 0 None None ;;
     ret results)
    (fun e =>
       ret [ ({[ "error" := PStr ("Search failed: " +:+ str_exn e) ]}
              : gmap string pyval) ]).

Definition create_email_draft (ctx : RunContext)
    (recipient_email subject context : string)
    (research_summary : option string) : M UsageStore (gmap string pyval) :=
  try_except
    (let email_prompt :=
       match research_summary with
       | Some summary =>
           if truthy summary
           then email_prompt_with_summary recipient_email subject context summary
           else email_prompt_plain recipient_email subject context
       | None => email_prompt_plain recipient_email subject context
       end in
     let email_deps :=
       mkEmailDeps (gmail_credentials_path (deps ctx))
                   (gmail_token_path (deps ctx))
                   (session_id (deps ctx)) in
     data <- agent_run email_agent email_prompt email_deps (usage ctx) ;;
     ret ({[ "success" := PBool true;
             "agent_response" := PStr data;
             "recipient" := PStr recipient_email;
             "subject" := PStr subject;
             "context" := PStr context ]} : gmap string pyval))
    (fun e =>
       ret ({[ "success" := PBool false;
               "error" := PStr (str_exn e);
               "recipient" := PStr recipient_email;
               "subject" := PStr subject ]} : gmap string pyval)).

End Agents.

End ResearchAgent.

(** ** The tool-enabled agent ([tool_enabled_agent/agent.py]) *)

Module ToolAgent.
Import Py.
Local Open Scope py_scope.

(** HTTP sessions ([aiohttp.ClientSession]) are objects in a store; a
    reference to one may be shared between a caller and its callee. *)
Definition loc := positive.

Inductive Event :=
| Acquire (s : loc)
| Release (s : loc).

(** [closed_flag] holds the [closed] property of every session created so
    far; [trace] records constructor and [close()] calls in order. *)
Record World := mkWorld {
  closed_flag : gmap loc bool;
  trace : list Event
}.

Record ToolDependencies := mkToolDeps {
  session : option loc;
  api_timeout : Z;
  max_search_results : Z;
  calculation_precision : Z;
  session_id : option string
}.

(** [ToolDependencies(session=session)] *)
Definition default_deps (s : option loc) : ToolDependencies :=
  mkToolDeps s 10 5 6 None.

(** [aiohttp.ClientSession()] *)
Definition new_session : M World loc :=
  fun w =>
    let s := fresh (dom (closed_flag w)) in
    (Ret s, mkWorld (<[s := false]> (closed_flag w)) (trace w ++ [Acquire s])).

(** [session.closed] *)
Definition session_closed (s : loc) : M World bool :=
  fun w => (Ret (default true (closed_flag w !! s)), w).

(** [await session.close()] *)
Definition session_close (s : loc) : M World unit :=
  fun w => (Ret tt, mkWorld (<[s := true]> (closed_flag w)) (trace w ++ [Release s])).

Section Calculator.

(** [eval(safe_expression, {"__builtins__": {}}, allowed_names)],
    [round(result, ndigits)] and the text [{result}] formats to. *)
Variable py_eval : string -> outcome pyval.
Variable py_round : PrimFloat.float -> Z -> PrimFloat.float.
Variable py_format : pyval -> string.

Definition newline : string := "
".

Definition calculate (d : ToolDependencies) (expression : string)
    (description : option string) : outcome string :=
  catch
    (let safe_expression :=
       replace (replace expression "__" EmptyString) "import" EmptyString in
     result ← py_eval safe_expression;
     let result :=
       match result with
       | PFloat q => PFloat (py_round q (calculation_precision d))
       | _ => result
       end in
     let output := "Calculation: " +:+ expression +:+ " = " +:+ py_format result in
     let output :=
       match description with
       | Some text => if truthy text then text +:+ newline +:+ output else output
       | None => output
       end in
     Ret output)
    (fun e =>
       Ret ("Calculation error: " +:+ str_exn e +:+ newline
            +:+ "Expression: " +:+ expression)).

End Calculator.

Section Asking.

(** [tool_agent.run(question, deps=dependencies)].  The tools of the agent
    send requests through the session of the dependencies but none of them
    creates or closes a session, so a run reads the world and leaves it as
    it is. *)
Variable tool_agent : string -> ToolDependencies -> World -> outcome string.

Definition tool_agent_run (question : string) (d : ToolDependencies)
  : M World string :=
  fun w => (tool_agent question d w, w).

Definition ask_agent (question : string) (dependencies : option ToolDependencies)
  : M World string :=
  dependencies <-
    match dependencies with
    | None =>
        session <- new_session ;;
        ret (default_deps (Some session))
    | Some d => ret d
    end ;;
  try_finally
    (result <- tool_agent_run question dependencies ;;
     ret result)
    (match session dependencies with
     | Some s =>
         closed <- session_closed s ;;
         if negb closed then session_close s else ret tt
     | None => ret tt
     end).

(** The loop of the demonstration under [__main__]: one session, shared by
    the calls for all [questions], closed by the demonstration itself. *)
Fixpoint ask_all (questions : list string) (d : ToolDependencies)
  : M World (list string) :=
  match questions with
  | [] => ret []
  | question :: rest =>
      response <- ask_agent question (Some d) ;;
      responses <- ask_all rest d ;;
      ret (response :: responses)
  end.

Definition demo_tools (questions : list string) : M World (list string) :=
  session <- new_session ;;
  let dependencies := default_deps (Some session) in
  try_finally (ask_all questions dependencies) (session_close session).

End Asking.

End ToolAgent.

(** ** The basic chat agent ([basic_chat_agent/agent.py]) *)

Module ChatAgent.
Import Py.
Local Open Scope py_scope.

Record ConversationContext := mkContext {
  user_name : option string;
  conversation_count : Z;
  preferred_language : string;
  session_id : option string
}.

(** [ConversationContext()] *)
Definition default_context : ConversationContext :=
  mkContext None 0 "English" None.

(** Contexts are mutable objects handed over by reference. *)
Definition loc := positive.
Abbreviation Heap := (gmap loc ConversationContext) (only parsing).

Definition dynamic_context_prompt (c : ConversationContext) : string :=
  let prompt_parts : list string := [] in
  let prompt_parts :=
    if truthy_opt (user_name c)
    then prompt_parts ++ ["The user's name is " +:+ default EmptyString (user_name c) +:+ "."]
    else prompt_parts in
  let prompt_parts :=
    if (0 <? conversation_count c)%Z
    then prompt_parts ++ ["This is message #" +:+ pretty (conversation_count c + 1)%Z
                          +:+ " in your conversation."]
    else prompt_parts in
  let prompt_parts :=
    if negb (String.eqb (preferred_language c) "English")
    then prompt_parts ++ ["The user prefers to communicate in "
                          +:+ preferred_language c +:+ "."]
    else prompt_parts in
  match prompt_parts with
  | [] => EmptyString
  | _ => join " " prompt_parts
  end.

Section Chat.

(** The model behind [chat_agent]: from the dynamic system prompt and the
    user's message to the reply, or the exception of a failed run. *)
Variable llm : string -> string -> outcome string.

(** [chat_agent.run(message, deps=context)]: the agent has no tools, and
    the only code that receives the dependencies, [dynamic_context_prompt],
    reads them. *)
Definition chat_agent_run (message : string) (context : loc) : M Heap string :=
  fun h =>
    match h !! context with
    | Some c => (llm (dynamic_context_prompt c) message, h)
    | None => (Raise (mkExn AttributeError "context"), h)
    end.

Definition new_context : M Heap loc :=
  fun h => let l := fresh (dom h) in (Ret l, <[l := default_context]> h).

(** [context.conversation_count += 1] *)
Definition increment_count (context : loc) : M Heap unit :=
  fun h =>
    (Ret tt,
     alter (fun c => mkContext (user_name c) (conversation_count c + 1)
                               (preferred_language c) (session_id c))
           context h).

Definition chat_with_agent (message : string) (context : option loc)
  : M Heap string :=
  context <-
    match context with
    | None => new_context
    | Some l => ret l
    end ;;
  increment_count context ;;;
  result <- chat_agent_run message context ;;
  ret result.

(** The synchronous variant runs the same agent through [run_sync]. *)
Definition chat_with_agent_sync (message : string) (context : option loc)
  : M Heap string :=
  context <-
    match context with
    | None => new_context
    | Some l => ret l
    end ;;
  increment_count context ;;;
  result <- chat_agent_run message context ;;
  ret result.

End Chat.

End ChatAgent.

(** ** The run graph: dispatcher and driver

    The sources only consume the run graph ([cli.py] iterates over the nodes
    of [research_agent.iter]); the driver and the dispatcher themselves
    belong to the agent library. *)

Module RunGraph.
Import Py.

(** Modelled from the spec: a tool call as the model requests it,
    [ToolCallRequested{call_id, name, args}] (the call objects of the agent
    library are not among the sources). *)
Record ToolCall := mkCall {
  call_id : nat;
  call_name : string;
  call_args : gmap string pyval
}.

(** Modelled from the spec: the errors of section 7 that are recovered at
    the dispatch boundary and surfaced as a tool result (the dispatcher of
    the agent library is not among the sources). *)
Inductive ToolError :=
| UnknownToolError
| ValidationError (fields : list string)
| ToolExecutionError (message : string).

(** Modelled from the spec: the execution mode of a registration,
    [blocking] or [non-blocking]. *)
Inductive ExecutionMode := blocking | non_blocking.

(** Modelled from the spec: a tool registration [{ name, argument schema,
    handler, execution mode }] (the registry of the agent library is not
    among the sources).  A schema lists the required fields with the name of
    their type. *)
Record ToolRegistration := mkRegistration {
  reg_schema : list (string * string);
  reg_handler : gmap string pyval -> outcome pyval;
  reg_mode : ExecutionMode
}.

(** Modelled from the spec: the events of section 3 (the event classes of
    the agent library are not among the sources). *)
Inductive Event :=
| TextDelta (text : string)
| FinalResult (output : string)
| ToolCallRequested (call : ToolCall)
| ToolCallCompleted (id : nat) (result : pyval + ToolError).

(** A field offends when it is missing or holds a value of another type. *)
Definition field_ok (args : gmap string pyval) (field : string * string) : bool :=
  match args !! field.1 with
  | Some v => String.eqb (type_name v) field.2
  | None => false
  end.

Definition offending_fields (schema : list (string * string))
    (args : gmap string pyval) : list string :=
  (filter (fun field => field_ok args field = false) schema).*1.

(** Modelled from the spec: [dispatch(call_id, name, args)] of section 4.3:
    an unknown name and a schema mismatch complete the call with an error
    without invoking anything; an exception of the handler is converted to
    a [ToolExecutionError]. *)
Definition dispatch (registry : gmap string ToolRegistration) (c : ToolCall)
  : Event :=
  match registry !! call_name c with
  | None => ToolCallCompleted (call_id c) (inr UnknownToolError)
  | Some reg =>
      match offending_fields (reg_schema reg) (call_args c) with
      | [] =>
          match reg_handler reg (call_args c) with
          | Ret v => ToolCallCompleted (call_id c) (inl v)
          | Raise e => ToolCallCompleted (call_id c)
                         (inr (ToolExecutionError (str_exn e)))
          end
      | fields => ToolCallCompleted (call_id c) (inr (ValidationError fields))
      end
  end.

(** Modelled from the spec: the kinds of [TransportError] of section 7. *)
Inductive TransportKind := rate_limited | unauthorized | other_upstream.

(** Modelled from the spec: what a model stage ends with (the model
    backend is a collaborator outside the sources): a result that carries an
    output and the tool calls it requests, or a transport failure. *)
Inductive ModelReply :=
| ModelResult (output : string) (calls : list ToolCall)
| TransportFailure (kind : TransportKind) (cause : string).

(** Modelled from the spec: the entries of the ordered turn history of a
    [RunSession]. *)
Inductive Turn :=
| UserTurn (prompt : string)
| ModelTurn (output : string) (calls : list ToolCall)
| ToolTurn (results : list Event).

(** Modelled from the spec: the nodes of section 3 (the node classes of
    the agent library are not among the sources); an [EndNode] carries the
    final output or the failure. *)
Inductive Node :=
| UserPromptNode (prompt : string)
| ModelRequestNode
| ToolCallNode (calls : list ToolCall)
| EndNode (result : string + TransportKind * string).

(** Modelled from the spec: the states of the driver of section 4.1. *)
Inductive DriverState :=
| AwaitingPrompt
| Generating
| Dispatching (calls : list ToolCall)
| Done
| Failed.

(** Modelled from the spec: a [RunSession] of section 3 with its prompt,
    turn history, driver state and the nodes emitted so far. *)
Record RunSession := mkSession {
  prompt : string;
  history : list Turn;
  state : DriverState;
  nodes : list Node
}.

(** Modelled from the spec: [start(prompt, deps)], a session that awaits
    its prompt. *)
Definition start (p : string) : RunSession :=
  mkSession p [] AwaitingPrompt [].

Definition is_terminal (st : DriverState) : bool :=
  match st with
  | Done | Failed => true
  | _ => false
  end.

Section Driver.

Variable model : list Turn -> ModelReply.
Variable registry : gmap string ToolRegistration.

(** Modelled from the spec: [advance(session)] of section 4.1, with the
    states [AwaitingPrompt -> Generating -> (Dispatching)* -> Done | Failed]
    (the driver of the agent library is not among the sources).  A node is
    emitted on entering a state; the first step emits the [UserPromptNode]
    and, moving on to [Generating] at once, the first [ModelRequestNode]. *)
Definition advance (s : RunSession) : RunSession :=
  match state s with
  | AwaitingPrompt =>
      mkSession (prompt s) (history s ++ [UserTurn (prompt s)]) Generating
                (nodes s ++ [UserPromptNode (prompt s); ModelRequestNode])
  | Generating =>
      match model (history s) with
      | ModelResult output (c :: cs) =>
          mkSession (prompt s) (history s ++ [ModelTurn output (c :: cs)])
                    (Dispatching (c :: cs))
                    (nodes s ++ [ToolCallNode (c :: cs)])
      | ModelResult output [] =>
          mkSession (prompt s) (history s ++ [ModelTurn output []]) Done
                    (nodes s ++ [EndNode (inl output)])
      | TransportFailure kind cause =>
          mkSession (prompt s) (history s) Failed
                    (nodes s ++ [EndNode (inr (kind, cause))])
      end
  | Dispatching calls =>
      mkSession (prompt s) (history s ++ [ToolTurn (dispatch registry <$> calls)])
                Generating
                (nodes s ++ [ModelRequestNode])
  | Done | Failed => s
  end.

(** [steps] calls of [advance] in a row. *)
Fixpoint drive (steps : nat) (s : RunSession) : RunSession :=
  match steps with
  | O => s
  | S n => drive n (advance s)
  end.

End Driver.

(** The shape of a node sequence. *)
Inductive NodeKind := KUserPrompt | KModelRequest | KToolCall | KEnd.

Definition kind_of (n : Node) : NodeKind :=
  match n with
  | UserPromptNode _ => KUserPrompt
  | ModelRequestNode => KModelRequest
  | ToolCallNode _ => KToolCall
  | EndNode _ => KEnd
  end.

Definition kind_eqb (a b : NodeKind) : bool :=
  match a, b with
  | KUserPrompt, KUserPrompt | KModelRequest, KModelRequest
  | KToolCall, KToolCall | KEnd, KEnd => true
  | _, _ => false
  end.

Definition count_kind (k : NodeKind) (l : list Node) : nat :=
  length (filter (fun n => kind_eqb (kind_of n) k = true) l).

Fixpoint no_consecutive_repeat (l : list Node) : bool :=
  match l with
  | a :: (b :: _) as rest =>
      negb (kind_eqb (kind_of a) (kind_of b)) && no_consecutive_repeat rest
  | _ => true
  end.

Definition starts_with_one_prompt (l : list Node) : bool :=
  match l with
  | UserPromptNode _ :: _ => Nat.eqb (count_kind KUserPrompt l) 1
  | _ => false
  end.

Definition ends_with_one_end (l : list Node) : bool :=
  match last l with
  | Some (EndNode _) => Nat.eqb (count_kind KEnd l) 1
  | _ => false
  end.

(** The kind of the node a session in a given state has emitted last. *)
Definition latest_kind (st : DriverState) : option NodeKind :=
  match st with
  | AwaitingPrompt => None
  | Generating => Some KModelRequest
  | Dispatching _ => Some KToolCall
  | Done | Failed => Some KEnd
  end.

Definition requests_tools (r : ModelReply) : bool :=
  match r with
  | ModelResult _ (_ :: _) => true
  | _ => false
  end.

(** The shape of the nodes of a session that has left [AwaitingPrompt]. *)
Record shaped (s : RunSession) : Prop := mkShaped {
  shaped_head : exists body, nodes s = UserPromptNode (prompt s) :: body;
  shaped_prompts : count_kind KUserPrompt (nodes s) = 1%nat;
  shaped_ends :
    count_kind KEnd (nodes s) = (if is_terminal (state s) then 1 else 0)%nat;
  shaped_last : kind_of <$> last (nodes s) = latest_kind (state s);
  shaped_repeat : no_consecutive_repeat (nodes s) = true
}.

End RunGraph.

(** ** Checks on relevance scores *)

Module ScoreCheck.
Import PrimFloat.

(** Whether the score of position [idx] lies in [0.1, 1.0]. *)
Definition in_range (idx : nat) : bool :=
  leb 0.1%float (Tools.position_score idx)
  && leb (Tools.position_score idx) 1.0%float.

(** Whether no number of a list is exceeded by itself or by a later one. *)
Fixpoint never_rising (l : list float) : bool :=
  match l with
  | [] => true
  | x :: rest => leb x x && forallb (fun y => leb y x) rest && never_rising rest
  end.

(** The scores of the first [n] positions. *)
Definition first_scores (n : nat) : list float :=
  Tools.position_score <$> seq 0 n.

End ScoreCheck.

(** ** Sample inputs *)

Module Samples.
Import Py.

Definition rate_limited_response : Tools.Response :=
  Tools.mkResponse 429 "Too Many Requests" (Raise (mkExn ValueError "no body")).

Definition rate_limiting_backend (_ : Tools.Request) : outcome Tools.Response :=
  Ret rate_limited_response.

(** A backend that is down, an evaluator that fails on every expression
    and a tool whose handler always fails. *)
Definition unreachable_backend (_ : Tools.Request) : outcome Tools.Response :=
  Raise (mkExn RequestError "connection refused").

Definition failing_eval (_ : string) : outcome pyval :=
  Raise (mkExn Exception "division by zero").

Definition failing_tool : RunGraph.ToolRegistration :=
  RunGraph.mkRegistration [("query", "str")]
    (fun _ => Raise (mkExn Exception "boom")) RunGraph.blocking.

Definition failing_call : RunGraph.ToolCall :=
  RunGraph.mkCall 7 "always_fails" {[ "query" := PStr "rocq" ]}.

Definition research_ctx (key : string) : ResearchAgent.RunContext :=
  ResearchAgent.mkRunContext
    (ResearchAgent.mkResearchDeps key "credentials.json" "token.json" None)
    1%positive.

(** A backend that answers every search with two results, the second
    without a title. *)
Definition two_results : pyval :=
  PDict {[ "web" := PDict {[ "results" :=
    PList [ PDict {[ "title" := PStr "Rocq"; "url" := PStr "https://rocq-prover.org";
                     "description" := PStr "The Rocq Prover" ]};
            PDict {[ "url" := PStr "https://example.org" ]} ] ]} ]}.

Definition answering_backend (_ : Tools.Request) : outcome Tools.Response :=
  Ret (Tools.mkResponse 200 "ok" (Ret two_results)).

(** A nested run that accrues [{request:3, response:5}] and returns, one
    that accrues the same and then fails, and a parent whose usage is
    [{request:10, response:2}]. *)
Definition drafting_email_agent (_ : string)
    (_ : ResearchAgent.EmailAgentDependencies) : ResearchAgent.NestedRun :=
  ResearchAgent.mkNestedRun [ResearchAgent.mkUsage 3 5 8] (Ret "draft created").

Definition failing_email_agent (_ : string)
    (_ : ResearchAgent.EmailAgentDependencies) : ResearchAgent.NestedRun :=
  ResearchAgent.mkNestedRun [ResearchAgent.mkUsage 1 2 3; ResearchAgent.mkUsage 2 3 5]
    (Raise (mkExn Exception "Gmail credentials not found")).

Definition parent_store : gmap ResearchAgent.loc ResearchAgent.UsageCounters :=
  {[ 1%positive := ResearchAgent.mkUsage 10 2 12 ]}.

(** A caller that owns session 1, still open, and hands it to the agent;
    an agent that answers with the state of the session it was given. *)
Definition callers_world : ToolAgent.World :=
  ToolAgent.mkWorld {[ 1%positive := false ]} [ToolAgent.Acquire 1%positive].

Definition callers_deps : ToolAgent.ToolDependencies :=
  ToolAgent.default_deps (Some 1%positive).

Definition probing_agent (_ : string) (d : ToolAgent.ToolDependencies)
    (w : ToolAgent.World) : outcome string :=
  match ToolAgent.session d with
  | Some s =>
      if default true (ToolAgent.closed_flag w !! s)
      then Ret "session closed" else Ret "session open"
  | None => Ret "no session"
  end.

Definition alex : ChatAgent.ConversationContext :=
  ChatAgent.mkContext (Some "Alex") 2 "English" (Some "s-1").

(** A model that asks for the failing tool once and answers after it has
    seen the result. *)
Definition one_round_model (h : list RunGraph.Turn) : RunGraph.ModelReply :=
  match h with
  | [_] => RunGraph.ModelResult "let me look that up" [failing_call]
  | _ => RunGraph.ModelResult "the tool failed, here is what I know" []
  end.

(** Blank strings that are not ASCII: U+00A0 (no-break space), U+0085 (next
    line) and U+3000 (ideographic space) in UTF-8, and a query made of
    them. *)
Definition no_break_space : string :=
  String (ascii_of_nat 194) (String (ascii_of_nat 160) EmptyString).

Definition next_line : string :=
  String (ascii_of_nat 194) (String (ascii_of_nat 133) EmptyString).

Definition ideographic_space : string :=
  String (ascii_of_nat 227)
    (String (ascii_of_nat 128) (String (ascii_of_nat 128) EmptyString)).

Definition unicode_blank : string :=
  no_break_space +:+ " " +:+ next_line +:+ ideographic_space.

End Samples.


(** ** Further functions of the sources

    The parts of the cited files that the sections above leave out. *)

Module PyMore.
Import Py.

(** [isinstance(v, dict)] *)
Definition is_dict (v : pyval) : bool :=
  match v with PDict _ => true | _ => false end.

End PyMore.

Module ToolsMore.
Import Py.

(** The entry [search_web_tool] appends for the result [item] at position
    [idx]: [result.get(key, "")] for the three texts and the score of the
    position. *)
Definition result_entry (idx : nat) (item : gmap string pyval)
  : gmap string pyval :=
  {[ "title" := default (PStr EmptyString) (item !! "title");
     "url" := default (PStr EmptyString) (item !! "url");
     "description" := default (PStr EmptyString) (item !! "description");
     "score" := PFloat (Tools.position_score idx) ]}.

(** The value a parameter of the request has when an optional argument is
    given and not empty. *)
Definition optional_param (o : option string) : option pyval :=
  match o with
  | Some s => if truthy s then Some (PStr s) else None
  | None => None
  end.

End ToolsMore.

Module MoreSamples.
Import Py.

(** A backend that answers with twenty-five results although fewer were
    asked for, and one whose second result is not an object. *)
Definition many_items : list (gmap string pyval) :=
  replicate 25 {[ "title" := PStr "t" ]}.

Definition generous_response : Tools.Response :=
  Tools.mkResponse 200 "ok"
    (Ret (PDict {[ "web" := PDict {[ "results" := PList (PDict <$> many_items) ]} ]})).

Definition generous_backend (_ : Tools.Request) : outcome Tools.Response :=
  Ret generous_response.

Definition broken_response : Tools.Response :=
  Tools.mkResponse 200 "ok"
    (Ret (PDict {[ "web" := PDict {[ "results" :=
       PList [PDict {[ "title" := PStr "fine" ]}; PStr "not an object"] ]} ]})).

Definition broken_backend (_ : Tools.Request) : outcome Tools.Response :=
  Ret broken_response.

Definition bare_response : Tools.Response :=
  Tools.mkResponse 200 "ok" (Ret (PDict {[ "query" := PStr "rocq" ]})).

Definition bare_backend (_ : Tools.Request) : outcome Tools.Response :=
  Ret bare_response.

End MoreSamples.

(** * Properties *)

Import Py.

(** ** Effects and strings *)

Lemma silent_ret {W A} (a : A) : silent (@ret W A a).
Proof. by intros w. Qed.

Lemma silent_raise {W A} (e : exn) : silent (@raise W A e).
Proof. by intros w. Qed.

Lemma silent_lift {W A} (o : outcome A) : silent (@lift W A o).
Proof. by intros w. Qed.

Lemma silent_bind {W A B} (c : M W A) (k : A -> M W B) :
  silent c -> (forall a, silent (k a)) -> silent (bind c k).
Proof.
  intros Hc Hk w. unfold bind. specialize (Hc w).
  destruct (c w) as [[a|e] w']; simpl in *; subst; [apply Hk | done].
Qed.

Lemma silent_if {W A} (b : bool) (c1 c2 : M W A) :
  silent c1 -> silent c2 -> silent (if b then c1 else c2).
Proof. by destruct b. Qed.

Ltac silence :=
  repeat (intros
          || apply silent_if || apply silent_bind
          || apply silent_raise || apply silent_lift || apply silent_ret).

Ltac reraised :=
  unfold raise, isinstance; simpl;
  repeat match goal with
         | |- context [exn_class_eqb ?a ?b] => destruct (exn_class_eqb a b)
         end; done.

Lemma strip_truthy s : truthy (strip s) = true -> truthy s = true.
Proof. by destruct s. Qed.

(** ** The search tool *)

(** A guarded block whose only effect is one request sends exactly that
    request, however it ends. *)
Lemma try_except_one_request {A} brave (r : Tools.Request)
    (k : Tools.Response -> M Tools.World A) (h : exn -> M Tools.World A) log :
  (forall a, silent (k a)) -> (forall e, silent (h e)) ->
  (try_except (bind (Tools.client_get brave r) k) h log).2 = log ++ [r].
Proof.
  intros Hk Hh. unfold try_except, bind, Tools.client_get.
  destruct (brave r) as [resp|e]; simpl.
  - specialize (Hk resp (log ++ [r])).
    destruct (k resp (log ++ [r])) as [[a|e] w']; simpl in *; subst; [done|].
    apply Hh.
  - apply Hh.
Qed.

Lemma search_web_tool_no_key brave api_key query count offset country lang log :
  truthy (strip api_key) = false ->
  Tools.search_web_tool brave api_key query count offset country lang log
  = (Raise (mkExn ValueError "Brave API key is required"), log).
Proof.
  intros Hk. unfold Tools.search_web_tool. rewrite Hk.
  by rewrite orb_true_r.
Qed.

Lemma search_web_tool_no_query brave api_key query count offset country lang log :
  truthy (strip api_key) = true -> truthy (strip query) = false ->
  Tools.search_web_tool brave api_key query count offset country lang log
  = (Raise (mkExn ValueError "Query cannot be empty"), log).
Proof.
  intros Hk Hq. unfold Tools.search_web_tool.
  rewrite Hk, Hq, (strip_truthy _ Hk). simpl. by rewrite orb_true_r.
Qed.

Lemma search_web_tool_log brave api_key query count offset country lang log :
  truthy (strip api_key) = true -> truthy (strip query) = true ->
  (Tools.search_web_tool brave api_key query count offset country lang log).2
  = log ++ [Tools.search_request api_key query count offset country lang].
Proof.
  intros Hk Hq. unfold Tools.search_web_tool.
  rewrite Hk, Hq, (strip_truthy _ Hk), (strip_truthy _ Hq). simpl.
  apply try_except_one_request; silence.
Qed.

(** The requests of one call: none when a check fails, one otherwise. *)
Lemma search_web_tool_sent brave api_key query count offset country lang log :
  (Tools.search_web_tool brave api_key query count offset country lang log).2
  = log ++ (if truthy (strip api_key) && truthy (strip query)
            then [Tools.search_request api_key query count offset country lang]
            else []).
Proof.
  destruct (truthy (strip api_key)) eqn:Hk.
  - destruct (truthy (strip query)) eqn:Hq; simpl.
    + by apply search_web_tool_log.
    + rewrite search_web_tool_no_query by done. simpl. by rewrite app_nil_r.
  - rewrite search_web_tool_no_key by done. simpl. by rewrite app_nil_r.
Qed.

Lemma search_request_count api_key query count offset country lang :
  Tools.req_params (Tools.search_request api_key query count offset country lang)
    !! "count"
  = Some (PInt (Z.min (Z.max count 1) 20)).
Proof.
  unfold Tools.search_request; simpl.
  destruct lang as [l|]; [destruct (truthy l)|];
    (destruct country as [c|]; [destruct (truthy c)|]);
    by simplify_map_eq.
Qed.

(** What the tool makes of the answer of the backend. *)
Lemma search_web_tool_answer brave api_key query count offset country lang log :
  truthy (strip api_key) = true -> truthy (strip query) = true ->
  (Tools.search_web_tool brave api_key query count offset country lang log).1
  = match brave (Tools.search_request api_key query count offset country lang) with
    | Raise e =>
        if isinstance e RequestError
        then Raise (mkExn Exception ("Request failed: " +:+ str_exn e))
        else Raise e
    | Ret response =>
        if (Tools.status_code response =? 429)%Z then
          Raise (mkExn Exception "Rate limit exceeded. Check your Brave API quota.")
        else if (Tools.status_code response =? 401)%Z then
          Raise (mkExn Exception "Invalid Brave API key")
        else if negb (Tools.status_code response =? 200)%Z then
          Raise (mkExn Exception
                   ("Brave API returned " +:+ pretty (Tools.status_code response)
                    +:+ ": " +:+ Tools.text response))
        else
          match (data ← Tools.json response;
                 web ← py_get data "web" (PDict ∅);
                 web_results ← py_get web "results" (PList []);
                 items ← py_iter web_results;
                 Tools.convert_results 0 items) with
          | Ret results => Ret results
          | Raise e =>
              if isinstance e RequestError
              then Raise (mkExn Exception ("Request failed: " +:+ str_exn e))
              else Raise e
          end
    end.
Proof.
  intros Hk Hq. unfold Tools.search_web_tool.
  rewrite Hk, Hq, (strip_truthy _ Hk), (strip_truthy _ Hq). simpl.
  fold (Tools.search_request api_key query count offset country lang).
  unfold try_except, bind, Tools.client_get.
  destruct (brave _) as [resp|e]; simpl; [|reraised].
  destruct (Tools.status_code resp =? 429)%Z; [done|].
  destruct (Tools.status_code resp =? 401)%Z; [done|].
  destruct (Tools.status_code resp =? 200)%Z; simpl; [|done].
  unfold lift, ret.
  destruct (Tools.json resp) as [data|e]; simpl; [|reraised].
  destruct (py_get data "web" _) as [web|e]; simpl; [|reraised].
  destruct (py_get web "results" _) as [wr|e]; simpl; [|reraised].
  destruct (py_iter wr) as [items|e]; simpl; [|reraised].
  destruct (Tools.convert_results 0 items) as [rs|e]; simpl; [done|reraised].
Qed.

(** [search_web] hands on what the tool returns and turns what it raises
    into a one-element list with an ["error"] entry. *)
Lemma search_web_unfold brave ctx query max_results log :
  ResearchAgent.search_web brave ctx query max_results log
  = let r := Tools.search_web_tool brave
               (ResearchAgent.brave_api_key (ResearchAgent.deps ctx)) query
               (Z.min (Z.max max_results 1) 20) 0 None None log in
    (match r.1 with
     | Ret results => Ret results
     | Raise e => Ret [ ({[ "error" := PStr ("Search failed: " +:+ str_exn e) ]}
                         : gmap string pyval) ]
     end, r.2).
Proof.
  unfold ResearchAgent.search_web, try_except, bind, ret. simpl.
  by destruct (Tools.search_web_tool _ _ _ _ _ _ _ _) as [[rs|e] log'].
Qed.

(** C8: the count of the search request lies in [1, 20] for every integer
    handed to [search_web] (as [max_results]) or to [search_web_tool] (as
    [count]): a call sends no request when a check on the key or the query
    fails and one request otherwise, whose [count] parameter is the input
    clamped by [min(max(n, 1), 20)]; values below 1 become 1, values above 20
    become 20, and clamping in both layers is the same as clamping once. *)
Theorem search_count_clamped brave ctx api_key query (max_results count offset : Z)
    country lang log :
  let clamp := fun n : Z => Z.min (Z.max n 1) 20 in
  let key := ResearchAgent.brave_api_key (ResearchAgent.deps ctx) in
  (Tools.search_web_tool brave api_key query count offset country lang log).2
    = log ++ (if truthy (strip api_key) && truthy (strip query)
              then [Tools.search_request api_key query count offset country lang]
              else [])
  /\ Tools.req_params (Tools.search_request api_key query count offset country lang)
       !! "count" = Some (PInt (clamp count))
  /\ (ResearchAgent.search_web brave ctx query max_results log).2
    = log ++ (if truthy (strip key) && truthy (strip query)
              then [Tools.search_request key query max_results 0 None None]
              else [])
  /\ Tools.req_params (Tools.search_request key query max_results 0 None None)
       !! "count" = Some (PInt (clamp max_results))
  /\ (1 <= clamp max_results <= 20)%Z
  /\ clamp max_results
     = (if (max_results <? 1)%Z then 1
        else if (20 <? max_results)%Z then 20 else max_results)%Z
  /\ clamp (clamp max_results) = clamp max_results.
Proof.
  intros clamp key. subst clamp. cbv beta.
  split; [apply search_web_tool_sent|].
  split; [apply search_request_count|].
  split.
  { rewrite search_web_unfold. cbv zeta. cbn [snd].
    rewrite search_web_tool_sent. fold key.
    destruct (truthy (strip key) && truthy (strip query)); [|done].
    do 2 f_equal. unfold Tools.search_request.
    by replace (Z.min (Z.max (Z.min (Z.max max_results 1) 20) 1) 20)
      with (Z.min (Z.max max_results 1) 20) by lia. }
  split; [apply search_request_count|].
  split; [lia|].
  split; [|lia].
  destruct (Z.ltb_spec max_results 1); [lia|].
  destruct (Z.ltb_spec 20 max_results); lia.
Qed.

(** C6: once the key and the query have passed their checks and the backend
    has answered, [search_web_tool] raises for status 429 the rate-limit
    error, for status 401 the authentication error and for every other
    status but 200 a generic error that quotes the status and the body; the
    three messages differ from one another whatever the status and the
    body. *)
Theorem backend_errors_distinguished brave api_key query count offset country
    lang log response :
  truthy (strip api_key) = true ->
  truthy (strip query) = true ->
  brave (Tools.search_request api_key query count offset country lang)
    = Ret response ->
  let status := Tools.status_code response in
  let rate_limited := "Rate limit exceeded. Check your Brave API quota." in
  let unauthorized := "Invalid Brave API key" in
  let upstream :=
    "Brave API returned " +:+ pretty status +:+ ": " +:+ Tools.text response in
  status <> 200%Z ->
  (Tools.search_web_tool brave api_key query count offset country lang log).1
    = Raise (mkExn Exception
               (if (status =? 429)%Z then rate_limited
                else if (status =? 401)%Z then unauthorized
                else upstream))
  /\ rate_limited <> unauthorized
  /\ rate_limited <> upstream
  /\ unauthorized <> upstream.
Proof.
  intros Hk Hq Hb status rate_limited unauthorized upstream Hstatus.
  split.
  - rewrite (search_web_tool_answer _ _ _ _ _ _ _ _ Hk Hq), Hb.
    fold status.
    destruct (status =? 429)%Z; [done|].
    destruct (status =? 401)%Z; [done|].
    destruct (Z.eqb_spec status 200); [done|done].
  - subst rate_limited unauthorized upstream. by repeat split.
Qed.

Lemma backend_errors_distinguished_witness :
  (Tools.search_web_tool Samples.rate_limiting_backend "key" "rocq" 10 0 None
     None []).1
    = Raise (mkExn Exception "Rate limit exceeded. Check your Brave API quota.")
  /\ "Rate limit exceeded. Check your Brave API quota." <> "Invalid Brave API key".
Proof.
  destruct (backend_errors_distinguished Samples.rate_limiting_backend
              "key" "rocq" 10 0 None None [] Samples.rate_limited_response)
    as (H1 & H2 & _);
    [reflexivity | reflexivity | reflexivity | discriminate |].
  split; [exact H1 | exact H2].
Defined.

(** ** Errors at the tool boundary *)

Lemma search_web_raise brave ctx query max_results log e :
  (Tools.search_web_tool brave
     (ResearchAgent.brave_api_key (ResearchAgent.deps ctx)) query
     (Z.min (Z.max max_results 1) 20) 0 None None log).1 = Raise e ->
  (ResearchAgent.search_web brave ctx query max_results log).1
  = Ret [ ({[ "error" := PStr ("Search failed: " +:+ str_exn e) ]}
           : gmap string pyval) ].
Proof. intros H. rewrite search_web_unfold. cbv zeta. cbn [fst]. by rewrite H. Qed.

(** [search_web] returns on every input. *)
Lemma search_web_returns brave ctx query max_results log :
  is_ret (ResearchAgent.search_web brave ctx query max_results log).1 = true.
Proof.
  rewrite search_web_unfold. cbv zeta. cbn [fst].
  by destruct (Tools.search_web_tool _ _ _ _ _ _ _ _).1.
Qed.

(** [calculate] returns on every input. *)
Lemma calculate_returns py_eval py_round py_format d expression description :
  is_ret (ToolAgent.calculate py_eval py_round py_format d expression description)
  = true.
Proof.
  unfold ToolAgent.calculate, catch.
  by destruct (py_eval _) as [v|e].
Qed.

Lemma calculate_raise py_eval py_round py_format d expression description e :
  py_eval (replace (replace expression "__" EmptyString) "import" EmptyString)
    = Raise e ->
  ToolAgent.calculate py_eval py_round py_format d expression description
  = Ret ("Calculation error: " +:+ str_exn e +:+ ToolAgent.newline
         +:+ "Expression: " +:+ expression).
Proof. intros H. unfold ToolAgent.calculate. by rewrite H. Qed.

(** C2: an exception raised inside a tool is caught at the tool boundary and
    comes back as an error value.  When the body of [search_web] (the call
    of [search_web_tool]) raises [e1], [search_web] returns the one-element
    list whose element has the entry ["error"]; when evaluating the
    expression of [calculate] raises [e2], [calculate] returns a text that
    begins with "Calculation error:"; and in the run graph, a call whose
    handler raises [e3] completes with a [ToolExecutionError], its result
    joins the turn history and the session goes on to [Generating], not to
    [Failed]. *)
Theorem tool_exceptions_become_results
    brave ctx query max_results log e1
    py_eval py_round py_format d expression description e2
    model registry session calls c reg e3 :
  (Tools.search_web_tool brave
     (ResearchAgent.brave_api_key (ResearchAgent.deps ctx)) query
     (Z.min (Z.max max_results 1) 20) 0 None None log).1 = Raise e1 ->
  py_eval (replace (replace expression "__" EmptyString) "import" EmptyString)
    = Raise e2 ->
  RunGraph.state session = RunGraph.Dispatching calls ->
  c ∈ calls ->
  registry !! RunGraph.call_name c = Some reg ->
  RunGraph.offending_fields (RunGraph.reg_schema reg) (RunGraph.call_args c) = [] ->
  RunGraph.reg_handler reg (RunGraph.call_args c) = Raise e3 ->
  (exists entry : gmap string pyval,
      (ResearchAgent.search_web brave ctx query max_results log).1 = Ret [entry]
      /\ entry !! "error" = Some (PStr ("Search failed: " +:+ str_exn e1)))
  /\ (exists text,
         ToolAgent.calculate py_eval py_round py_format d expression description
           = Ret text
         /\ startswith text "Calculation error:" = true)
  /\ (let session' := RunGraph.advance model registry session in
      let failed :=
        RunGraph.ToolCallCompleted (RunGraph.call_id c)
          (inr (RunGraph.ToolExecutionError (str_exn e3))) in
      RunGraph.dispatch registry c = failed
      /\ RunGraph.state session' = RunGraph.Generating
      /\ exists results,
          RunGraph.history session'
            = RunGraph.history session ++ [RunGraph.ToolTurn results]
          /\ failed ∈ results).
Proof.
  intros Hsearch Heval Hstate Hc Hreg Hvalid Hhandler.
  split; [|split].
  - eexists. split; [by apply search_web_raise|]. by simplify_map_eq.
  - eexists. split; [by apply calculate_raise|]. done.
  - assert (Hd : RunGraph.dispatch registry c
                 = RunGraph.ToolCallCompleted (RunGraph.call_id c)
                     (inr (RunGraph.ToolExecutionError (str_exn e3)))).
    { unfold RunGraph.dispatch. by rewrite Hreg, Hvalid, Hhandler. }
    cbv zeta. split; [done|].
    unfold RunGraph.advance. rewrite Hstate. simpl.
    split; [done|]. eexists. split; [done|].
    rewrite <- Hd. by apply list_elem_of_fmap_2.
Qed.

Lemma tool_exceptions_become_results_witness :
  (ResearchAgent.search_web Samples.unreachable_backend
     (Samples.research_ctx "key") "rocq" 5 []).1
    = Ret [ ({[ "error" := PStr "Search failed: Request failed: connection refused" ]}
             : gmap string pyval) ]
  /\ ToolAgent.calculate Samples.failing_eval (fun q _ => q) (fun _ => "?")
       (ToolAgent.default_deps None) "1/0" None
     = Ret ("Calculation error: division by zero" +:+ ToolAgent.newline
            +:+ "Expression: 1/0")
  /\ RunGraph.state
       (RunGraph.advance (fun _ => RunGraph.ModelResult "done" [])
          {[ "always_fails" := Samples.failing_tool ]}
          (RunGraph.mkSession "hi" [] (RunGraph.Dispatching [Samples.failing_call]) []))
     = RunGraph.Generating.
Proof.
  destruct (tool_exceptions_become_results
              Samples.unreachable_backend (Samples.research_ctx "key") "rocq" 5 []
              (mkExn Exception "Request failed: connection refused")
              Samples.failing_eval (fun q _ => q) (fun _ => "?")
              (ToolAgent.default_deps None) "1/0" None
              (mkExn Exception "division by zero")
              (fun _ => RunGraph.ModelResult "done" [])
              {[ "always_fails" := Samples.failing_tool ]}
              (RunGraph.mkSession "hi" [] (RunGraph.Dispatching [Samples.failing_call]) [])
              [Samples.failing_call] Samples.failing_call Samples.failing_tool
              (mkExn Exception "boom"))
    as ((entry & H1 & H1') & (text & H2 & _) & (_ & H3 & _)).
  - reflexivity.
  - reflexivity.
  - reflexivity.
  - apply list_elem_of_here.
  - reflexivity.
  - reflexivity.
  - reflexivity.
  - split; [reflexivity|]. split; [reflexivity|exact H3].
Defined.

(** ** Argument checks of the search tool *)

(** When the key and the query are both empty, the call is rejected for the
    key alone: the error of [search_web_tool], and the error entry
    [search_web] makes of it, do not name the query. *)
Lemma empty_query_not_reported :
  Tools.search_web_tool Samples.unreachable_backend EmptyString EmptyString
      10 0 None None []
    = (Raise (mkExn ValueError "Brave API key is required"), [])
  /\ names_field "Brave API key is required" "query" = false
  /\ ResearchAgent.search_web Samples.unreachable_backend
       (Samples.research_ctx EmptyString) EmptyString 10 []
     = (Ret [ ({[ "error" := PStr "Search failed: Brave API key is required" ]}
               : gmap string pyval) ], [])
  /\ names_field "Search failed: Brave API key is required" "query" = false.
Proof. repeat split; reflexivity. Qed.

(** C4 (amended): a call with a query that is empty or made of whitespace
    only (any character [str.strip()] removes, ASCII or not) never reaches
    the backend and never fails unhandled.  [search_web_tool] checks the key
    first and the query second and raises a [ValueError] for the first check
    that fails, before any request is sent: "Query cannot be empty", which
    names the query, when the key is in order, and "Brave API key is
    required" when the key is empty or whitespace only as well.
    [search_web] returns that error as the ["error"] entry of a one-element
    list. *)
Theorem blank_query_rejected brave ctx api_key query max_results count offset
    country lang log :
  truthy (strip query) = false ->
  let reported := fun key : string =>
    if truthy (strip key) then "Query cannot be empty"
    else "Brave API key is required" in
  Tools.search_web_tool brave api_key query count offset country lang log
    = (Raise (mkExn ValueError (reported api_key)), log)
  /\ ResearchAgent.search_web brave ctx query max_results log
     = (Ret [ ({[ "error" :=
                    PStr ("Search failed: "
                          +:+ reported (ResearchAgent.brave_api_key
                                          (ResearchAgent.deps ctx))) ]}
               : gmap string pyval) ], log)
  /\ names_field "Query cannot be empty" "query" = true.
Proof.
  intros Hq reported.
  assert (Htool : forall key n,
             Tools.search_web_tool brave key query n offset country lang log
             = (Raise (mkExn ValueError (reported key)), log)).
  { intros key n. subst reported. cbv beta.
    destruct (truthy (strip key)) eqn:Hk.
    - by apply search_web_tool_no_query.
    - by apply search_web_tool_no_key. }
  split; [apply Htool|]. split; [|done].
  rewrite search_web_unfold. cbv zeta.
  assert (Htool' : forall key n,
             Tools.search_web_tool brave key query n 0 None None log
             = (Raise (mkExn ValueError (reported key)), log)).
  { intros key n. subst reported. cbv beta.
    destruct (truthy (strip key)) eqn:Hk.
    - by apply search_web_tool_no_query.
    - by apply search_web_tool_no_key. }
  by rewrite Htool'.
Qed.

Lemma blank_query_rejected_witness :
  Tools.search_web_tool Samples.unreachable_backend "key" Samples.unicode_blank
    10 0 None None []
    = (Raise (mkExn ValueError "Query cannot be empty"), [])
  /\ ResearchAgent.search_web Samples.unreachable_backend
       (Samples.research_ctx "key") Samples.unicode_blank 10 []
     = (Ret [ ({[ "error" := PStr "Search failed: Query cannot be empty" ]}
               : gmap string pyval) ], []).
Proof.
  destruct (blank_query_rejected Samples.unreachable_backend
              (Samples.research_ctx "key") "key" Samples.unicode_blank 10 10 0
              None None [])
    as (H1 & H2 & _); [reflexivity|].
  split; [exact H1 | exact H2].
Defined.

(** A key that is a no-break space is blank as well: with a query of two
    spaces the call is rejected for the key. *)
Lemma blank_key_reported_first :
  Tools.search_web_tool Samples.unreachable_backend Samples.no_break_space
    "  " 10 0 None None []
  = (Raise (mkExn ValueError "Brave API key is required"), []).
Proof. reflexivity. Qed.

(** ** Relevance scores *)

Ltac not_returned :=
  solve [unfold isinstance; simpl; repeat case_match; done].

(** The loop keeps one entry per result and scores it by its position. *)
Lemma convert_results_score items : forall k results,
  Tools.convert_results k items = Ret results ->
  length results = length items /\
  forall i (r : gmap string pyval), results !! i = Some r ->
    r !! "score" = Some (PFloat (Tools.position_score (k + i))).
Proof.
  induction items as [|item items IH]; intros k results; simpl.
  - intros [= <-]. split; [done|]. intros i r Hi. by rewrite lookup_nil in Hi.
  - destruct (py_get item "title" _) as [title|]; simpl; [|done].
    destruct (py_get item "url" _) as [url|]; simpl; [|done].
    destruct (py_get item "description" _) as [description|]; simpl; [|done].
    destruct (Tools.convert_results (S k) items) as [rest|] eqn:Hrest;
      simpl; [|done].
    intros [= <-]. destruct (IH _ _ Hrest) as [Hlen Hscore].
    split; [simpl; by rewrite Hlen|].
    intros [|i] r; simpl.
    + intros [= <-]. rewrite Nat.add_0_r. by simplify_map_eq.
    + intros Hi. rewrite <- Nat.add_succ_comm. by apply Hscore.
Qed.

(** Whatever [search_web_tool] returns came out of the conversion loop. *)
Lemma search_web_tool_ret brave api_key query count offset country lang log
    results :
  (Tools.search_web_tool brave api_key query count offset country lang log).1
    = Ret results ->
  exists items, Tools.convert_results 0 items = Ret results.
Proof.
  destruct (truthy (strip api_key)) eqn:Hk;
    [|by rewrite search_web_tool_no_key].
  destruct (truthy (strip query)) eqn:Hq;
    [|by rewrite search_web_tool_no_query].
  rewrite search_web_tool_answer by done.
  destruct (brave _) as [resp|e]; [|not_returned].
  destruct (Tools.status_code resp =? 429)%Z; [done|].
  destruct (Tools.status_code resp =? 401)%Z; [done|].
  destruct (Tools.status_code resp =? 200)%Z; [|done]. simpl.
  destruct (Tools.json resp) as [data|e]; simpl; [|not_returned].
  destruct (py_get data "web" _) as [web|e]; simpl; [|not_returned].
  destruct (py_get web "results" _) as [wr|e]; simpl; [|not_returned].
  destruct (py_iter wr) as [items|e]; simpl; [|not_returned].
  destruct (Tools.convert_results 0 items) as [rs|e] eqn:Hc;
    simpl; [|not_returned].
  intros [= <-]. by exists items.
Qed.

(** ** Delegation to the email agent *)

Lemma merge_assoc a b c :
  ResearchAgent.merge (ResearchAgent.merge a b) c
  = ResearchAgent.merge a (ResearchAgent.merge b c).
Proof. unfold ResearchAgent.merge; simpl. f_equal; lia. Qed.

Lemma merge_zero_r a : ResearchAgent.merge a ResearchAgent.usage_zero = a.
Proof. destruct a. unfold ResearchAgent.merge; simpl. f_equal; lia. Qed.

Lemma merge_zero_l a : ResearchAgent.merge ResearchAgent.usage_zero a = a.
Proof. by destruct a. Qed.

(** Accounting a run on counters that already hold [pre] gives [pre] plus
    what the run accounts on fresh counters. *)
Lemma foldl_merge_from increments : forall pre,
  foldl ResearchAgent.merge pre increments
  = ResearchAgent.merge pre
      (foldl ResearchAgent.merge ResearchAgent.usage_zero increments).
Proof.
  induction increments as [|inc rest IH]; intros pre; simpl.
  - by rewrite merge_zero_r.
  - rewrite IH, (IH (ResearchAgent.merge _ inc)).
    by rewrite merge_zero_l, merge_assoc.
Qed.

Lemma account_on_shared_usage (u : ResearchAgent.loc) increments :
  forall (store : gmap ResearchAgent.loc ResearchAgent.UsageCounters) pre,
    store !! u = Some pre ->
    let store' :=
      foldl (fun st inc => alter (fun c => ResearchAgent.merge c inc) u st)
            store increments in
    store' !! u = Some (foldl ResearchAgent.merge pre increments)
    /\ forall l, l <> u -> store' !! l = store !! l.
Proof.
  induction increments as [|inc rest IH]; intros store pre Hu; simpl.
  - done.
  - destruct (IH (alter (fun c => ResearchAgent.merge c inc) u store)
                (ResearchAgent.merge pre inc)) as [H1 H2].
    { by rewrite lookup_alter_eq, Hu. }
    split; [done|]. intros l Hl. rewrite H2 by done.
    by rewrite lookup_alter_ne.
Qed.

(** The draft tool in one equation: the payload follows the end of the
    nested run, the store holds the increments of the run in either case. *)
Lemma create_email_draft_unfold email_agent ctx recipient_email subject context
    research_summary store :
  let run :=
    email_agent (ResearchAgent.email_prompt recipient_email subject context
                   research_summary)
                (ResearchAgent.email_deps_of ctx) in
  ResearchAgent.create_email_draft email_agent ctx recipient_email subject
    context research_summary store
  = (match ResearchAgent.final run with
     | Ret data =>
         Ret ({[ "success" := PBool true;
                 "agent_response" := PStr data;
                 "recipient" := PStr recipient_email;
                 "subject" := PStr subject;
                 "context" := PStr context ]} : gmap string pyval)
     | Raise e =>
         Ret ({[ "success" := PBool false;
                 "error" := PStr (str_exn e);
                 "recipient" := PStr recipient_email;
                 "subject" := PStr subject ]} : gmap string pyval)
     end,
     foldl (fun st inc => alter (fun c => ResearchAgent.merge c inc)
                                (ResearchAgent.usage ctx) st)
           store (ResearchAgent.accrued run)).
Proof.
  intros run.
  unfold ResearchAgent.create_email_draft, try_except, bind, ret,
    ResearchAgent.agent_run.
  fold (ResearchAgent.email_prompt recipient_email subject context
          research_summary).
  fold (ResearchAgent.email_deps_of ctx). fold run.
  by destruct (ResearchAgent.final run).
Qed.

(** C1: after a delegation through [create_email_draft], the usage counters
    of the parent (the object [ctx.usage] refers to) read the usage before
    the call plus the final usage of the nested email-agent run, no more and
    no less, and no other usage object changes; merging a nested
    [{request:3, response:5}] into a parent [{request:10, response:2}]
    gives [{request:13, response:7}]. *)
Theorem delegation_usage_is_additive email_agent ctx recipient_email subject
    context research_summary
    (store : gmap ResearchAgent.loc ResearchAgent.UsageCounters) pre :
  store !! ResearchAgent.usage ctx = Some pre ->
  let run :=
    email_agent (ResearchAgent.email_prompt recipient_email subject context
                   research_summary)
                (ResearchAgent.email_deps_of ctx) in
  let store' :=
    (ResearchAgent.create_email_draft email_agent ctx recipient_email subject
       context research_summary store).2 in
  store' !! ResearchAgent.usage ctx
    = Some (ResearchAgent.merge pre (ResearchAgent.session_usage run))
  /\ (forall l, l <> ResearchAgent.usage ctx -> store' !! l = store !! l)
  /\ ResearchAgent.merge (ResearchAgent.mkUsage 10 2 12)
       (ResearchAgent.mkUsage 3 5 8)
     = ResearchAgent.mkUsage 13 7 20.
Proof.
  intros Hpre run store'. subst store'.
  rewrite create_email_draft_unfold. cbv zeta. cbn [snd]. fold run.
  destruct (account_on_shared_usage (ResearchAgent.usage ctx)
              (ResearchAgent.accrued run) store pre Hpre) as [H1 H2].
  split; [|split; [exact H2 | reflexivity]].
  rewrite H1. unfold ResearchAgent.session_usage.
  by rewrite foldl_merge_from.
Qed.

Lemma delegation_usage_is_additive_witness :
  (ResearchAgent.create_email_draft Samples.drafting_email_agent
     (Samples.research_ctx "key") "ada@example.org" "Findings" "weekly report"
     None Samples.parent_store).2 !! 1%positive
  = Some (ResearchAgent.mkUsage 13 7 20).
Proof.
  destruct (delegation_usage_is_additive Samples.drafting_email_agent
              (Samples.research_ctx "key") "ada@example.org" "Findings"
              "weekly report" None Samples.parent_store
              (ResearchAgent.mkUsage 10 2 12))
    as (H1 & _); [reflexivity|].
  exact H1.
Defined.

(** C3: when the nested email-agent run fails with [e], [create_email_draft]
    does not raise: it returns the payload with [success = False] and the
    message of [e] under ["error"], and the usage the run accrued before it
    failed is merged into the usage of the parent all the same. *)
Theorem failed_delegation_is_reported email_agent ctx recipient_email subject
    context research_summary
    (store : gmap ResearchAgent.loc ResearchAgent.UsageCounters) pre e :
  let run :=
    email_agent (ResearchAgent.email_prompt recipient_email subject context
                   research_summary)
                (ResearchAgent.email_deps_of ctx) in
  let result :=
    ResearchAgent.create_email_draft email_agent ctx recipient_email subject
      context research_summary store in
  store !! ResearchAgent.usage ctx = Some pre ->
  ResearchAgent.final run = Raise e ->
  (exists payload : gmap string pyval,
      result.1 = Ret payload
      /\ payload !! "success" = Some (PBool false)
      /\ payload !! "error" = Some (PStr (str_exn e))
      /\ payload !! "recipient" = Some (PStr recipient_email)
      /\ payload !! "subject" = Some (PStr subject))
  /\ result.2 !! ResearchAgent.usage ctx
     = Some (ResearchAgent.merge pre
               (foldl ResearchAgent.merge ResearchAgent.usage_zero
                  (ResearchAgent.accrued run))).
Proof.
  intros run result Hpre Hfail. subst result.
  rewrite create_email_draft_unfold. cbv zeta. cbn [fst snd]. fold run.
  rewrite Hfail. split.
  - eexists. split; [done|]. by simplify_map_eq.
  - destruct (account_on_shared_usage (ResearchAgent.usage ctx)
                (ResearchAgent.accrued run) store pre Hpre) as [H1 _].
    rewrite H1. by rewrite foldl_merge_from.
Qed.

Lemma failed_delegation_is_reported_witness :
  let result :=
    ResearchAgent.create_email_draft Samples.failing_email_agent
      (Samples.research_ctx "key") "ada@example.org" "Findings" "weekly report"
      (Some "three sources") Samples.parent_store in
  is_ret result.1 = true
  /\ result.2 !! 1%positive = Some (ResearchAgent.mkUsage 13 7 20).
Proof.
  destruct (failed_delegation_is_reported Samples.failing_email_agent
              (Samples.research_ctx "key") "ada@example.org" "Findings"
              "weekly report" (Some "three sources") Samples.parent_store
              (ResearchAgent.mkUsage 10 2 12)
              (mkExn Exception "Gmail credentials not found"))
    as ((payload & H1 & _) & H2); [reflexivity | reflexivity |].
  split; [by rewrite H1 | exact H2].
Defined.

(** ** The conversation counter of the chat agent *)

Lemma chat_with_agent_store llm message (context : ChatAgent.loc)
    (h : gmap ChatAgent.loc ChatAgent.ConversationContext) :
  (ChatAgent.chat_with_agent llm message (Some context) h).2
  = alter (fun c => ChatAgent.mkContext (ChatAgent.user_name c)
                      (ChatAgent.conversation_count c + 1)
                      (ChatAgent.preferred_language c)
                      (ChatAgent.session_id c)) context h.
Proof.
  unfold ChatAgent.chat_with_agent, bind, ret, ChatAgent.increment_count,
    ChatAgent.chat_agent_run. simpl.
  destruct (alter _ context h !! context) as [c|]; simpl; [|done].
  by destruct (llm _ message).
Qed.

Lemma chat_with_agent_sync_store llm message (context : ChatAgent.loc)
    (h : gmap ChatAgent.loc ChatAgent.ConversationContext) :
  (ChatAgent.chat_with_agent_sync llm message (Some context) h).2
  = alter (fun c => ChatAgent.mkContext (ChatAgent.user_name c)
                      (ChatAgent.conversation_count c + 1)
                      (ChatAgent.preferred_language c)
                      (ChatAgent.session_id c)) context h.
Proof.
  unfold ChatAgent.chat_with_agent_sync, bind, ret, ChatAgent.increment_count,
    ChatAgent.chat_agent_run. simpl.
  destruct (alter _ context h !! context) as [c|]; simpl; [|done].
  by destruct (llm _ message).
Qed.

(** C10: with a context supplied by the caller, a call of [chat_with_agent]
    or of [chat_with_agent_sync] leaves that context with
    [conversation_count] one higher and with [user_name],
    [preferred_language] and [session_id] as they were, whether the run of
    the agent returns or raises; no other context changes. *)
Theorem chat_increments_count llm message (context : ChatAgent.loc)
    (h : gmap ChatAgent.loc ChatAgent.ConversationContext) c :
  h !! context = Some c ->
  let counted :=
    ChatAgent.mkContext (ChatAgent.user_name c)
      (ChatAgent.conversation_count c + 1)
      (ChatAgent.preferred_language c) (ChatAgent.session_id c) in
  let after := (ChatAgent.chat_with_agent llm message (Some context) h).2 in
  let after_sync :=
    (ChatAgent.chat_with_agent_sync llm message (Some context) h).2 in
  after !! context = Some counted
  /\ after_sync !! context = Some counted
  /\ (forall l, l <> context -> after !! l = h !! l /\ after_sync !! l = h !! l).
Proof.
  intros Hc counted after after_sync. subst after after_sync.
  rewrite chat_with_agent_sync_store, chat_with_agent_store.
  rewrite lookup_alter_eq, Hc. repeat split; try done.
  all: by rewrite lookup_alter_ne.
Qed.

Lemma chat_increments_count_witness :
  (ChatAgent.chat_with_agent (fun _ _ => Ret "Hello Alex") "hi" (Some 1%positive)
     {[ 1%positive := Samples.alex ]}).2 !! 1%positive
  = Some (ChatAgent.mkContext (Some "Alex") 3 "English" (Some "s-1")).
Proof.
  destruct (chat_increments_count (fun _ _ => Ret "Hello Alex") "hi" 1%positive
              {[ 1%positive := Samples.alex ]} Samples.alex)
    as (H1 & _); [reflexivity|].
  exact H1.
Defined.

(** ** The session of the tool-enabled agent *)

(** A call without dependencies creates a session of its own and closes it
    once, whether the run returns or raises. *)
Lemma ask_agent_own_session tool_agent question (w : ToolAgent.World) :
  let s := fresh (dom (ToolAgent.closed_flag w)) in
  let w' := (ToolAgent.ask_agent tool_agent question None w).2 in
  ToolAgent.trace w'
    = ToolAgent.trace w ++ [ToolAgent.Acquire s; ToolAgent.Release s]
  /\ ToolAgent.closed_flag w' = <[s := true]> (ToolAgent.closed_flag w).
Proof.
  intros s. unfold ToolAgent.ask_agent, bind, ret, try_finally,
    ToolAgent.new_session, ToolAgent.tool_agent_run, ToolAgent.session_closed,
    ToolAgent.session_close. simpl. fold s.
  destruct (tool_agent _ _ _); simpl; rewrite lookup_insert_eq; simpl;
    (split; [by rewrite <- app_assoc | by rewrite insert_insert_eq]).
Qed.

(** C7: the call below is handed the dependencies of its caller, whose
    session 1 is open.  [ask_agent] acquires no session, but its [finally]
    block closes session 1, the session of the caller. *)
Theorem ask_agent_closes_callers_session tool_agent question :
  ToolAgent.ask_agent tool_agent question (Some Samples.callers_deps)
    Samples.callers_world
  = (tool_agent question Samples.callers_deps Samples.callers_world,
     ToolAgent.mkWorld {[ 1%positive := true ]}
       [ToolAgent.Acquire 1%positive; ToolAgent.Release 1%positive]).
Proof.
  unfold ToolAgent.ask_agent, bind, ret, try_finally, ToolAgent.tool_agent_run.
  simpl.
  by destruct (tool_agent question Samples.callers_deps Samples.callers_world).
Qed.

(** The demonstration under [__main__] shares one session between its calls
    and closes it itself: the first call has already closed it, the second
    call runs on a closed session, and [close()] is called a second time. *)
Lemma demo_session_closed_early :
  ToolAgent.demo_tools Samples.probing_agent ["first"; "second"]
    (ToolAgent.mkWorld ∅ [])
  = (Ret ["session open"; "session closed"],
     ToolAgent.mkWorld {[ 1%positive := true ]}
       [ToolAgent.Acquire 1%positive; ToolAgent.Release 1%positive;
        ToolAgent.Release 1%positive]).
Proof. by vm_compute. Qed.

(** ** The run graph *)

Import RunGraph.

Lemma count_kind_snoc k l n :
  count_kind k (l ++ [n])
  = (count_kind k l + (if kind_eqb (kind_of n) k then 1 else 0))%nat.
Proof.
  unfold count_kind. rewrite filter_app, length_app. f_equal.
  rewrite filter_cons, filter_nil.
  destruct (kind_eqb (kind_of n) k); by case_decide.
Qed.

Lemma no_consecutive_repeat_snoc l n :
  no_consecutive_repeat (l ++ [n])
  = no_consecutive_repeat l
    && match last l with
       | Some m => negb (kind_eqb (kind_of m) (kind_of n))
       | None => true
       end.
Proof.
  induction l as [|a [|b l] IH]; simpl in *.
  - done.
  - by rewrite andb_true_r.
  - rewrite IH. by rewrite andb_assoc.
Qed.

Lemma shaped_first model registry p : shaped (advance model registry (start p)).
Proof. by split; [eexists|..]. Qed.

Lemma shaped_advance model registry s :
  shaped s -> shaped (advance model registry s).
Proof.
  intros [[body Hhead] Hprompts Hends Hlast Hrepeat].
  unfold advance.
  destruct (state s) as [| |calls| |] eqn:Hstate; simpl in *.
  - destruct (last (nodes s)) as [m|] eqn:Hm; [done|].
    apply last_None in Hm. by rewrite Hm in Hhead.
  - destruct (last (nodes s)) as [m|] eqn:Hm; [|done].
    injection Hlast as Hkind.
    destruct (model (history s)) as [output [|c cs]|kind cause]; simpl.
    all: split; simpl;
      [ rewrite Hhead; by eexists
      | by rewrite count_kind_snoc, Hprompts
      | by rewrite count_kind_snoc, Hends
      | by rewrite last_snoc
      | by rewrite no_consecutive_repeat_snoc, Hrepeat, Hm, Hkind ].
  - destruct (last (nodes s)) as [m|] eqn:Hm; [|done].
    injection Hlast as Hkind.
    split; simpl;
      [ rewrite Hhead; by eexists
      | by rewrite count_kind_snoc, Hprompts
      | by rewrite count_kind_snoc, Hends
      | by rewrite last_snoc
      | by rewrite no_consecutive_repeat_snoc, Hrepeat, Hm, Hkind ].
  - split; rewrite ?Hstate; try done. by eexists.
  - split; rewrite ?Hstate; try done. by eexists.
Qed.

Lemma shaped_drive model registry steps : forall s,
  shaped s -> shaped (drive model registry steps s).
Proof.
  induction steps as [|n IH]; intros s Hs; simpl; [done|].
  by apply IH, shaped_advance.
Qed.

Lemma drive_terminal model registry steps s :
  is_terminal (state s) = true -> drive model registry steps s = s.
Proof.
  intros Ht. induction steps as [|n IH]; simpl; [done|].
  replace (advance model registry s) with s; [done|].
  unfold advance. by destruct (state s).
Qed.

Lemma drive_add model registry a b s :
  drive model registry (a + b) s = drive model registry b (drive model registry a s).
Proof. revert s. induction a as [|a IH]; intros s; simpl; [done|apply IH]. Qed.

Lemma advance_final model registry s :
  state s = Generating -> requests_tools (model (history s)) = false ->
  is_terminal (state (advance model registry s)) = true.
Proof.
  intros Hstate Hm. unfold advance. rewrite Hstate.
  by destruct (model (history s)) as [output [|c cs]|kind cause].
Qed.

Lemma advance_round model registry s :
  state s = Generating -> requests_tools (model (history s)) = true ->
  let s2 := advance model registry (advance model registry s) in
  state s2 = Generating /\ length (history s2) = (length (history s) + 2)%nat.
Proof.
  intros Hstate Hm.
  destruct (model (history s)) as [output [|c cs]|kind cause] eqn:Hmodel;
    try done.
  assert (Hadv : advance model registry s
                 = mkSession (prompt s)
                     (history s ++ [ModelTurn output (c :: cs)])
                     (Dispatching (c :: cs))
                     (nodes s ++ [ToolCallNode (c :: cs)])).
  { unfold advance. by rewrite Hstate, Hmodel. }
  cbv zeta. rewrite Hadv. unfold advance. simpl.
  split; [done|]. rewrite !length_app. simpl. lia.
Qed.

Lemma generating_terminates model registry k :
  (forall h, (k <= length h)%nat -> requests_tools (model h) = false) ->
  forall n s, state s = Generating -> (k <= length (history s) + 2 * n)%nat ->
    is_terminal (state (drive model registry (2 * n + 1) s)) = true.
Proof.
  intros Hstop. induction n as [|n IH]; intros s Hstate Hlen.
  - simpl. apply advance_final; [done|]. apply Hstop. lia.
  - replace (2 * S n + 1)%nat with (S (S (2 * n + 1))) by lia.
    destruct (requests_tools (model (history s))) eqn:Hm.
    + cbn [drive].
      destruct (advance_round model registry s Hstate Hm) as [Hs2 Hl2].
      apply IH; [done|]. rewrite Hl2. lia.
    + change (drive model registry (S (S (2 * n + 1))) s)
        with (drive model registry (S (2 * n + 1)) (advance model registry s)).
      rewrite drive_terminal; by apply advance_final.
Qed.

Lemma run_terminates model registry k p steps :
  (forall h, (k <= length h)%nat -> requests_tools (model h) = false) ->
  (2 * k + 2 <= steps)%nat ->
  is_terminal (state (drive model registry steps (start p))) = true.
Proof.
  intros Hstop Hsteps.
  replace steps with (S (2 * k + 1) + (steps - (2 * k + 2)))%nat by lia.
  rewrite drive_add. cbn [drive].
  assert (Ht : is_terminal
                 (state (drive model registry (2 * k + 1)
                           (advance model registry (start p)))) = true).
  { apply (generating_terminates model registry k Hstop); [done|simpl; lia]. }
  by rewrite drive_terminal.
Qed.

Lemma shaped_ends_with_one_end s :
  shaped s -> ends_with_one_end (nodes s) = is_terminal (state s).
Proof.
  intros [_ _ Hends Hlast _]. unfold ends_with_one_end.
  destruct (last (nodes s)) as [[p| |calls|result]|];
    destruct (state s); try done; simpl in *; by rewrite Hends.
Qed.

Lemma shaped_starts_with_one_prompt s :
  shaped s -> starts_with_one_prompt (nodes s) = true.
Proof.
  intros [[body Hhead] Hprompts _ _ _]. unfold starts_with_one_prompt.
  rewrite Hhead in *. by rewrite Hprompts.
Qed.

(** C5: in the run graph of the spec, once a session has been started its
    node sequence begins with the one [UserPromptNode] it contains, no two
    neighbouring nodes are of the same kind, and the sequence ends with its
    one and only [EndNode] exactly when the session is [Done] or [Failed];
    a session whose model stops asking for tools once the history holds [k]
    turns reaches such an end within [2 * k + 2] steps; and a transport
    failure while [Generating] moves the session to [Failed] with an
    [EndNode] that carries the failure. *)
Theorem run_graph_node_sequence model registry p steps :
  let s := drive model registry (S steps) (start p) in
  starts_with_one_prompt (nodes s) = true
  /\ no_consecutive_repeat (nodes s) = true
  /\ ends_with_one_end (nodes s) = is_terminal (state s)
  /\ (forall k,
         (forall h, (k <= length h)%nat -> requests_tools (model h) = false) ->
         (2 * k + 1 <= steps)%nat ->
         is_terminal (state s) = true)
  /\ (forall s0 kind cause,
         state s0 = Generating ->
         model (history s0) = TransportFailure kind cause ->
         let s1 := advance model registry s0 in
         state s1 = Failed
         /\ last (nodes s1) = Some (EndNode (inr (kind, cause)))).
Proof.
  intros s.
  assert (Hshaped : shaped s).
  { subst s. cbn [drive]. apply shaped_drive, shaped_first. }
  split; [by apply shaped_starts_with_one_prompt|].
  split; [by destruct Hshaped|].
  split; [by apply shaped_ends_with_one_end|].
  split.
  - intros k Hstop Hsteps. subst s. apply (run_terminates _ _ k); [done|lia].
  - intros s0 kind cause Hstate Hmodel. cbv zeta.
    unfold advance. rewrite Hstate, Hmodel. simpl.
    split; [done|]. by rewrite last_snoc.
Qed.

Lemma run_graph_node_sequence_witness :
  let s := drive Samples.one_round_model
             {[ "always_fails" := Samples.failing_tool ]} 6 (start "hi") in
  nodes s
    = [UserPromptNode "hi"; ModelRequestNode;
       ToolCallNode [Samples.failing_call]; ModelRequestNode;
       EndNode (inl "the tool failed, here is what I know")]
  /\ is_terminal (state s) = true
  /\ starts_with_one_prompt (nodes s) = true
  /\ ends_with_one_end (nodes s) = true
  /\ no_consecutive_repeat (nodes s) = true.
Proof.
  destruct (run_graph_node_sequence Samples.one_round_model
              {[ "always_fails" := Samples.failing_tool ]} "hi" 5)
    as (H1 & H2 & H3 & H4 & _).
  assert (Hterminal := H4 2%nat).
  cbv zeta. split; [reflexivity|].
  split.
  { apply Hterminal; [|simpl; lia].
    intros [|a [|b h]] Hlen; simpl in Hlen; [lia | lia | reflexivity]. }
  split; [exact H1|]. split; [|exact H2].
  rewrite H3. reflexivity.
Defined.

(** * Further properties *)

(** ** Relevance scores on binary64 numbers *)

Lemma first_scores_in_range :
  forallb ScoreCheck.in_range (seq 0 2000) = true.
Proof. vm_compute. reflexivity. Qed.

Lemma first_scores_never_rising :
  ScoreCheck.never_rising (ScoreCheck.first_scores 2000) = true.
Proof. vm_compute. reflexivity. Qed.

Lemma score_in_range idx :
  (idx < 2000)%nat -> ScoreCheck.in_range idx = true.
Proof.
  intros Hidx. pose proof first_scores_in_range as Hall.
  rewrite forallb_forall in Hall. apply Hall, in_seq. lia.
Qed.

Lemma never_rising_lookup l : forall i j x y,
  ScoreCheck.never_rising l = true ->
  l !! i = Some x -> l !! j = Some y -> (i <= j)%nat ->
  PrimFloat.leb y x = true.
Proof.
  induction l as [|a l IH]; intros i j x y Hl Hi Hj Hij; [done|].
  simpl in Hl. apply andb_true_iff in Hl as [Hl Hrest].
  apply andb_true_iff in Hl as [Hrefl Hlater].
  destruct i as [|i]; simpl in Hi.
  - injection Hi as <-. destruct j as [|j]; simpl in Hj.
    + by injection Hj as <-.
    + rewrite forallb_forall in Hlater. apply Hlater.
      apply list_elem_of_In. by eapply list_elem_of_lookup_2.
  - destruct j as [|j]; [lia|]. simpl in Hj.
    apply (IH i j); [done|done|done|lia].
Qed.

Lemma score_not_exceeded idx j :
  (idx <= j < 2000)%nat ->
  PrimFloat.leb (Tools.position_score j) (Tools.position_score idx) = true.
Proof.
  intros Hj.
  apply (never_rising_lookup (ScoreCheck.first_scores 2000) idx j);
    [apply first_scores_never_rising| | |lia];
    unfold ScoreCheck.first_scores;
    rewrite list_lookup_fmap, lookup_seq_lt by lia; done.
Qed.

Section Binary64Scores.
Import PrimFloat.

(** X1: in the list a successful [search_web_tool] call returns, the entry
    at a position [idx] below 2000 holds the binary64 result of
    [max(1.0 - idx * 0.05, 0.1)]; that number lies in [0.1, 1.0], and no
    later entry below position 2000 has a higher score. *)
Theorem first_scores_on_binary64 brave api_key query count offset country lang
    log results idx (r : gmap string pyval) :
  (Tools.search_web_tool brave api_key query count offset country lang log).1
    = Ret results ->
  results !! idx = Some r ->
  (idx < 2000)%nat ->
  let difference :=
    (1.0 - of_uint63 (Uint63.of_Z (Z.of_nat idx)) * 0.05)%float in
  let score := if ltb difference 0.1%float then 0.1%float else difference in
  r !! "score" = Some (PFloat score)
  /\ leb 0.1%float score = true
  /\ leb score 1.0%float = true
  /\ (forall j (r' : gmap string pyval),
         results !! j = Some r' -> (idx <= j < 2000)%nat ->
         exists later,
           r' !! "score" = Some (PFloat later) /\ leb later score = true).
Proof.
  intros Hret Hidx Hbound difference score.
  destruct (search_web_tool_ret _ _ _ _ _ _ _ _ _ Hret) as [items Hitems].
  destruct (convert_results_score _ _ _ Hitems) as [_ Hscore].
  assert (Hformula : Tools.position_score idx = score) by reflexivity.
  pose proof (score_in_range idx Hbound) as Hrange.
  unfold ScoreCheck.in_range in Hrange. rewrite Hformula in Hrange.
  apply andb_true_iff in Hrange as [Hlow Hhigh].
  split; [rewrite <- Hformula; by apply (Hscore idx)|].
  split; [done|]. split; [done|].
  intros j r' Hj Hle. exists (Tools.position_score j).
  split; [by apply (Hscore j)|].
  rewrite <- Hformula. by apply score_not_exceeded.
Qed.

End Binary64Scores.

Lemma first_scores_on_binary64_witness :
  exists first second : gmap string pyval,
    (Tools.search_web_tool Samples.answering_backend "key" "rocq" 10 0 None
       None []).1 = Ret [first; second]
    /\ second !! "score" = Some (PFloat (Tools.position_score 1))
    /\ PrimFloat.leb (Tools.position_score 1) (Tools.position_score 0) = true.
Proof.
  assert (Hret : exists first second : gmap string pyval,
             (Tools.search_web_tool Samples.answering_backend "key" "rocq" 10 0
                None None []).1 = Ret [first; second]).
  { eexists _, _. vm_compute. reflexivity. }
  destruct Hret as (first & second & Hret).
  exists first, second. split; [exact Hret|].
  destruct (first_scores_on_binary64 Samples.answering_backend "key" "rocq" 10
              0 None None [] [first; second] 0 first Hret eq_refl)
    as (_ & _ & _ & Hlater); [lia|].
  destruct (Hlater 1%nat second eq_refl) as (later & Hscore & Hle); [lia|].
  destruct (first_scores_on_binary64 Samples.answering_backend "key" "rocq" 10
              0 None None [] [first; second] 1 second Hret eq_refl)
    as (Hsecond & _); [lia|].
  split; [exact Hsecond|].
  rewrite Hsecond in Hscore. injection Hscore as <-. exact Hle.
Defined.

(** ** The search tool: results, requests, failures *)

Lemma convert_results_dicts (items : list (gmap string pyval)) : forall k,
  Tools.convert_results k (PDict <$> items)
  = Ret (imap (fun i item => ToolsMore.result_entry (k + i) item) items).
Proof.
  induction items as [|item items IH]; intros k; simpl; [done|].
  rewrite IH. simpl. unfold ToolsMore.result_entry at 2. rewrite Nat.add_0_r.
  do 2 f_equal. apply imap_ext. intros i x _. simpl. f_equal. lia.
Qed.

Lemma convert_results_bad_item items : forall k,
  Exists (fun v => PyMore.is_dict v = false) items ->
  exists e, Tools.convert_results k items = Raise e /\ exn_cls e = AttributeError.
Proof.
  induction items as [|item items IH]; intros k Hbad.
  - by apply Exists_nil in Hbad.
  - simpl. destruct item as [| | | | | |d];
      try (eexists; split; [reflexivity|done]).
    simpl. apply Exists_cons in Hbad as [Hbad|Hbad]; [done|].
    destruct (IH (S k) Hbad) as (e & -> & He). simpl. by exists e.
Qed.

(** The tool on a response with status 200. *)
Lemma search_web_tool_ok brave api_key query count offset country lang log
    response :
  truthy (strip api_key) = true -> truthy (strip query) = true ->
  brave (Tools.search_request api_key query count offset country lang)
    = Ret response ->
  Tools.status_code response = 200%Z ->
  (Tools.search_web_tool brave api_key query count offset country lang log).1
  = match (data ← Tools.json response;
           web ← py_get data "web" (PDict ∅);
           web_results ← py_get web "results" (PList []);
           items ← py_iter web_results;
           Tools.convert_results 0 items) with
    | Ret results => Ret results
    | Raise e =>
        if isinstance e RequestError
        then Raise (mkExn Exception ("Request failed: " +:+ str_exn e))
        else Raise e
    end.
Proof.
  intros Hk Hq Hb Hs. rewrite search_web_tool_answer by done.
  by rewrite Hb, Hs.
Qed.

(** X2: when the backend answers 200 with a JSON object whose [web.results]
    is a list of objects, [search_web_tool] returns one entry per object, in
    the order of the backend: the [title], [url] and [description] of the
    object (the empty string for a missing one) and the score of the
    position.  The list is not cut to [count]: it is as long as the list of
    the backend. *)
Theorem search_results_follow_backend brave api_key query count offset country
    lang log response (data web : gmap string pyval)
    (items : list (gmap string pyval)) :
  truthy (strip api_key) = true ->
  truthy (strip query) = true ->
  brave (Tools.search_request api_key query count offset country lang)
    = Ret response ->
  Tools.status_code response = 200%Z ->
  Tools.json response = Ret (PDict data) ->
  data !! "web" = Some (PDict web) ->
  web !! "results" = Some (PList (PDict <$> items)) ->
  let results :=
    imap (fun idx item => ToolsMore.result_entry idx item) items in
  (Tools.search_web_tool brave api_key query count offset country lang log).1
    = Ret results
  /\ length results = length items.
Proof.
  intros Hk Hq Hb Hs Hjson Hweb Hresults results.
  subst results. split; [|by rewrite length_imap].
  rewrite (search_web_tool_ok _ _ _ _ _ _ _ _ _ Hk Hq Hb Hs), Hjson. simpl.
  rewrite Hweb. simpl. rewrite Hresults. simpl.
  by rewrite convert_results_dicts.
Qed.

Lemma search_results_follow_backend_witness :
  exists results,
    (Tools.search_web_tool MoreSamples.generous_backend "key" "rocq" 3 0 None
       None []).1 = Ret results
    /\ length results = 25%nat.
Proof.
  destruct (search_results_follow_backend MoreSamples.generous_backend "key"
              "rocq" 3 0 None None [] MoreSamples.generous_response
              {[ "web" := PDict {[ "results" :=
                   PList (PDict <$> MoreSamples.many_items) ]} ]}
              {[ "results" := PList (PDict <$> MoreSamples.many_items) ]}
              MoreSamples.many_items)
    as [H1 H2];
    [reflexivity | reflexivity | reflexivity | reflexivity | reflexivity
    | reflexivity | reflexivity |].
  eexists. split; [exact H1|]. rewrite H2. reflexivity.
Defined.

(** X3: one result that is not an object fails the whole search: when the
    list of the backend holds such an item, [search_web_tool] raises an
    [AttributeError] and returns no entry, not even for the items before
    it, and [search_web] reports the failure as its one-element error
    list. *)
Theorem malformed_result_fails_search brave ctx query max_results log response
    (data web : gmap string pyval) (items : list pyval) :
  let key := ResearchAgent.brave_api_key (ResearchAgent.deps ctx) in
  truthy (strip key) = true ->
  truthy (strip query) = true ->
  brave (Tools.search_request key query (Z.min (Z.max max_results 1) 20) 0
           None None) = Ret response ->
  Tools.status_code response = 200%Z ->
  Tools.json response = Ret (PDict data) ->
  data !! "web" = Some (PDict web) ->
  web !! "results" = Some (PList items) ->
  Exists (fun v => PyMore.is_dict v = false) items ->
  exists e,
    (Tools.search_web_tool brave key query (Z.min (Z.max max_results 1) 20) 0
       None None log).1 = Raise e
    /\ exn_cls e = AttributeError
    /\ (ResearchAgent.search_web brave ctx query max_results log).1
       = Ret [ ({[ "error" := PStr ("Search failed: " +:+ str_exn e) ]}
                : gmap string pyval) ].
Proof.
  intros key Hk Hq Hb Hs Hjson Hweb Hresults Hbad.
  destruct (convert_results_bad_item items 0 Hbad) as (e & Hconv & He).
  exists e.
  assert (Htool : (Tools.search_web_tool brave key query
                     (Z.min (Z.max max_results 1) 20) 0 None None log).1
                  = Raise e).
  { rewrite (search_web_tool_ok _ _ _ _ _ _ _ _ _ Hk Hq Hb Hs), Hjson. simpl.
    rewrite Hweb. simpl. rewrite Hresults. simpl. rewrite Hconv.
    unfold isinstance. by rewrite He. }
  split; [done|]. split; [done|].
  rewrite search_web_unfold. cbv zeta. cbn [fst]. fold key. by rewrite Htool.
Qed.

Lemma malformed_result_fails_search_witness :
  (ResearchAgent.search_web MoreSamples.broken_backend
     (Samples.research_ctx "key") "rocq" 5 []).1
  = Ret [ ({[ "error" :=
               PStr "Search failed: 'str' object has no attribute 'get'" ]}
           : gmap string pyval) ].
Proof.
  destruct (malformed_result_fails_search MoreSamples.broken_backend
              (Samples.research_ctx "key") "rocq" 5 []
              MoreSamples.broken_response
              {[ "web" := PDict {[ "results" :=
                   PList [PDict {[ "title" := PStr "fine" ]};
                          PStr "not an object"] ]} ]}
              {[ "results" :=
                   PList [PDict {[ "title" := PStr "fine" ]};
                          PStr "not an object"] ]}
              [PDict {[ "title" := PStr "fine" ]}; PStr "not an object"])
    as (e & H1 & _ & H3);
    [reflexivity | reflexivity | reflexivity | reflexivity | reflexivity
    | reflexivity | reflexivity
    | apply Exists_cons_tl, Exists_cons_hd; reflexivity |].
  assert (He : e = mkExn AttributeError "'str' object has no attribute 'get'").
  { assert (Hr : Raise e
                 = (Raise (mkExn AttributeError
                             "'str' object has no attribute 'get'")
                    : outcome (list (gmap string pyval))));
      [rewrite <- H1; reflexivity | by injection Hr]. }
  rewrite H3, He. reflexivity.
Defined.

(** X4: a 200 answer that has no [web] entry, or a [web] object without
    [results], is an empty search, not an error: [search_web_tool] returns
    the empty list. *)
Theorem missing_results_mean_none brave api_key query count offset country lang
    log response (data : gmap string pyval) :
  truthy (strip api_key) = true ->
  truthy (strip query) = true ->
  brave (Tools.search_request api_key query count offset country lang)
    = Ret response ->
  Tools.status_code response = 200%Z ->
  Tools.json response = Ret (PDict data) ->
  (data !! "web" = None
   \/ exists web : gmap string pyval,
        data !! "web" = Some (PDict web) /\ web !! "results" = None) ->
  (Tools.search_web_tool brave api_key query count offset country lang log).1
    = Ret [].
Proof.
  intros Hk Hq Hb Hs Hjson Hmissing.
  rewrite (search_web_tool_ok _ _ _ _ _ _ _ _ _ Hk Hq Hb Hs), Hjson. simpl.
  destruct Hmissing as [Hweb|(web & Hweb & Hresults)]; rewrite Hweb; simpl.
  - by rewrite lookup_empty.
  - by rewrite Hresults.
Qed.

Lemma missing_results_mean_none_witness :
  (Tools.search_web_tool MoreSamples.bare_backend "key" "rocq" 10 0 None None
     []).1 = Ret [].
Proof.
  apply (missing_results_mean_none MoreSamples.bare_backend "key" "rocq" 10 0
           None None [] MoreSamples.bare_response {[ "query" := PStr "rocq" ]});
    [reflexivity | reflexivity | reflexivity | reflexivity | reflexivity |].
  left. reflexivity.
Defined.

(** X5: the one request of a call carries the arguments as they were given:
    the key in the header [X-Subscription-Token], the query unstripped under
    [q], the offset unchanged (only [count] is clamped) and a [country] or
    [lang] parameter only for an argument that is given and not empty. *)
Theorem search_request_carries_arguments brave api_key query count offset
    country lang log :
  truthy (strip api_key) = true ->
  truthy (strip query) = true ->
  exists r,
    (Tools.search_web_tool brave api_key query count offset country lang log).2
      = log ++ [r]
    /\ Tools.req_url r = "https://api.search.brave.com/res/v1/web/search"
    /\ Tools.req_headers r !! "X-Subscription-Token" = Some api_key
    /\ Tools.req_params r !! "q" = Some (PStr query)
    /\ Tools.req_params r !! "offset" = Some (PInt offset)
    /\ Tools.req_params r !! "country" = ToolsMore.optional_param country
    /\ Tools.req_params r !! "lang" = ToolsMore.optional_param lang.
Proof.
  intros Hk Hq. eexists. split; [by apply search_web_tool_log|].
  unfold Tools.search_request, ToolsMore.optional_param. simpl.
  destruct lang as [l|]; [destruct (truthy l)|];
    (destruct country as [c|]; [destruct (truthy c)|]);
    repeat split; by simplify_map_eq.
Qed.

Lemma search_request_carries_arguments_witness :
  exists r,
    (Tools.search_web_tool Samples.unreachable_backend "key" " rocq " 10 (-3)
       (Some EmptyString) (Some "en") []).2 = [r]
    /\ Tools.req_params r !! "q" = Some (PStr " rocq ")
    /\ Tools.req_params r !! "offset" = Some (PInt (-3))
    /\ Tools.req_params r !! "country" = None
    /\ Tools.req_params r !! "lang" = Some (PStr "en").
Proof.
  destruct (search_request_carries_arguments Samples.unreachable_backend "key"
              " rocq " 10 (-3) (Some EmptyString) (Some "en") [])
    as (r & H1 & _ & _ & H4 & H5 & H6 & H7); [reflexivity | reflexivity |].
  exists r. repeat split; assumption.
Defined.

(** X6: a failure behind the tool comes out of [search_web_tool] after one
    request, without a retry: an exception of the class [RequestError],
    raised by the request or while the body of a 200 answer is decoded, is
    replaced by a plain [Exception] "Request failed: ..." and every other
    exception is raised again as it is. *)
Theorem backend_failures_propagate brave api_key query count offset country lang
    log e :
  truthy (strip api_key) = true ->
  truthy (strip query) = true ->
  let request := Tools.search_request api_key query count offset country lang in
  (brave request = Raise e
   \/ exists response,
        brave request = Ret response
        /\ Tools.status_code response = 200%Z
        /\ Tools.json response = Raise e) ->
  Tools.search_web_tool brave api_key query count offset country lang log
  = (Raise (if isinstance e RequestError
            then mkExn Exception ("Request failed: " +:+ str_exn e)
            else e),
     log ++ [request]).
Proof.
  intros Hk Hq request Hfail.
  rewrite (surjective_pairing (Tools.search_web_tool _ _ _ _ _ _ _ _)).
  rewrite search_web_tool_log by done. f_equal.
  destruct Hfail as [Hb|(response & Hb & Hs & Hjson)].
  - rewrite search_web_tool_answer by done. fold request. rewrite Hb. reraised.
  - rewrite (search_web_tool_ok _ _ _ _ _ _ _ _ _ Hk Hq Hb Hs), Hjson. simpl.
    reraised.
Qed.

Lemma backend_failures_propagate_witness :
  Tools.search_web_tool Samples.unreachable_backend "key" "rocq" 10 0 None None
    []
  = (Raise (mkExn Exception "Request failed: connection refused"),
     [Tools.search_request "key" "rocq" 10 0 None None]).
Proof.
  apply (backend_failures_propagate Samples.unreachable_backend "key" "rocq" 10
           0 None None [] (mkExn RequestError "connection refused"));
    [reflexivity | reflexivity |].
  left. reflexivity.
Defined.
